(** * libdatachannel: PeerConnection orchestration and the ICE transport adapter

    A shallow embedding of [peerconnection.cpp] and [icetransport.cpp].

    - C++ objects are records, [std::optional] and nullable [shared_ptr]
      members are [option], the channel registry ([mDataChannels]) is a
      finite map keyed by the [unsigned int] stream id.
    - Member functions of [PeerConnection] are computations in a small
      state/exception monad [M]: they read and update the object, may
      [throw], and emit the calls they make on their collaborators (the
      transports, the channels, the application callbacks) as a list of
      events, in program order.
    - What the external libraries answer (libnice, the DTLS and SCTP
      transports) is not decided by this code: every call takes the answers
      of that call as an [Env]. *)

From Stdlib Require Import ZArith Lia.
From Stdlib.Strings Require Import Byte.
From stdpp Require Import gmap strings list fin_maps.

Local Open Scope Z_scope.

(** ** Value objects of the description layer *)

(** [Description::Role].  The sources name [Active] and [ActPass]; [Passive]
    is the third role of the description layer. *)
Inductive Role := Active | Passive | ActPass.

#[global] Instance Role_eq_dec : EqDecision Role.
Proof. solve_decision. Defined.

(** [Description]: role, SDP body, optional fingerprint, optional SCTP port. *)
Record Description := {
  d_role : Role;
  d_sdp : string;
  d_fingerprint : option string;
  d_sctpPort : option Z
}.

Definition setFingerprint (fp : string) (d : Description) : Description :=
  {| d_role := d_role d; d_sdp := d_sdp d;
     d_fingerprint := Some fp; d_sctpPort := d_sctpPort d |}.

Definition setSctpPort (port : Z) (d : Description) : Description :=
  {| d_role := d_role d; d_sdp := d_sdp d;
     d_fingerprint := d_fingerprint d; d_sctpPort := Some port |}.

(** [Candidate]: candidate text tagged with a media-stream identifier. *)
Record Candidate := { c_candidate : string; c_mid : string }.

(** Modelled from the spec: the reliability policy of a channel
    (reliability.hpp is not among the sources), "ordered/unordered,
    retransmit limits -- opaque to the core".  The orchestrator only stores
    it in the channel. *)
Record Reliability := { unordered : bool; rexmit : Z }.

(** Modelled from the spec: the class of a message (message.hpp is not among
    the sources), "a message class (control vs. data)".  The code only tests
    for [Message::Control]. *)
Inductive MessageType := Control | Data.

#[global] Instance MessageType_eq_dec : EqDecision MessageType.
Proof. solve_decision. Defined.

(** A message: a byte vector with a class and a stream id ([unsigned int]). *)
Module Message.
Record t := { data : list byte; type : MessageType; stream : Z }.
Definition size (m : t) : Z := Z.of_nat (length (data m)).
End Message.

(** 32-bit [unsigned int] arithmetic. *)
Definition wrap32 (z : Z) : Z := z mod 2 ^ 32.

(** What the sources use of the description layer without defining it:
    the parsing constructor and string conversion of [Description], those of
    [Candidate], and the numeric value of [IceTransport::State::READY]. *)
Class Externals := {
  Description_parse : Role -> string -> Description;
  Description_string : Description -> string;
  Candidate_make : string -> string -> Candidate;
  Candidate_string : Candidate -> string;
  READY : Z
}.

Inductive exn :=
| runtime_error (what : string)
| logic_error (what : string).

(** The answers of the external libraries during one call. *)
Record Env := {
  nice_agent_new : bool;                    (* false: a null agent *)
  nice_agent_add_stream : Z;                (* the stream id, 0 on failure *)
  nice_agent_generate_local_sdp : string;
  nice_agent_parse_remote_sdp : string -> Z;
  nice_agent_gather_candidates : bool;
  nice_agent_parse_remote_candidate_sdp : string -> bool; (* false: null *)
  nice_agent_set_remote_candidates : Z;
  nice_agent_get_stream_name : string;
  IceTransport_mState : Z;                  (* the state a new session is in *)
  DtlsTransport_new : option exn;           (* what the constructor throws *)
  SctpTransport_new : option exn;           (* what the constructor throws *)
  SctpTransport_isReady : bool
}.

(** ** IceTransport (icetransport.cpp) *)

Module IceTransport.

Record t := { mRole : Role; mState : Z; mStreamId : Z }.

(** What a member function does besides computing its result: calls into
    the agent, and calls of the callbacks given at construction ([recv] is
    the delivery to the transport above). *)
Inductive Effect :=
| parse_remote_sdp (sdp : string)
| gather_candidates (streamId : Z)
| parse_remote_candidate_sdp (streamId : Z) (sdp : string)
| set_remote_candidates (streamId component : Z)
| nice_agent_send (streamId component : Z) (len : Z) (buf : list byte)
| recv (m : Message.t)
| candidateCallback (c : option Candidate)
| readyCallback.

Definition is_upcall (e : Effect) : bool :=
  match e with
  | candidateCallback _ | readyCallback | recv _ => true
  | _ => false
  end.

Section Methods.
Context `{X : Externals}.
Variable E : Env.

(** The constructor: the agent is created, one stream with one component is
    added.  (The selection of a STUN server among [config.servers] only
    configures the agent and is left out; a null main loop is not acted
    upon by the source.)  The state the object starts in is not set by the
    constructor. *)
Definition new (role : Role) : exn + t :=
  if negb (nice_agent_new E) then
    inl (runtime_error "Failed to create the nice agent")
  else
    let streamId := nice_agent_add_stream E in
    if streamId =? 0 then inl (runtime_error "Failed to add a stream")
    else inr {| mRole := role; mState := IceTransport_mState E;
                mStreamId := streamId |}.

Definition role (ice : t) : Role := mRole ice.

Definition state (ice : t) : Z := mState ice.

Definition getLocalDescription (ice : t) : Description :=
  Description_parse (mRole ice) (nice_agent_generate_local_sdp E).

Definition setRemoteDescription (ice : t) (description : Description)
  : list Effect * option exn :=
  let sdp := Description_string description in
  ([parse_remote_sdp sdp],
   if nice_agent_parse_remote_sdp E sdp =? 0 then None
   else Some (runtime_error "Unable to parse remote SDP")).

Definition gatherLocalCandidates (ice : t) : list Effect * option exn :=
  ([gather_candidates (mStreamId ice)],
   if nice_agent_gather_candidates E then None
   else Some (runtime_error "Unable to gather local ICE candidates")).

Definition addRemoteCandidate (ice : t) (candidate : Candidate)
  : list Effect * bool :=
  let sdp := Candidate_string candidate in
  if negb (nice_agent_parse_remote_candidate_sdp E sdp) then
    ([parse_remote_candidate_sdp (mStreamId ice) sdp], false)
  else
    let ret := nice_agent_set_remote_candidates E in
    ([parse_remote_candidate_sdp (mStreamId ice) sdp;
      set_remote_candidates (mStreamId ice) 1],
     0 <? ret).

Definition outgoing (ice : t) (message : Message.t) : list Effect :=
  [nice_agent_send (mStreamId ice) 1 (Message.size message)
     (Message.data message)].

Definition send (ice : t) (message : Message.t) : list Effect * bool :=
  if mStreamId ice =? 0 then ([], false)
  else (outgoing ice message, true).

Definition incoming (ice : t) (message : Message.t) : list Effect :=
  [recv message].

Definition getStreamName (ice : t) : string :=
  nice_agent_get_stream_name E.

Definition processCandidate (ice : t) (candidate : string) : list Effect :=
  [candidateCallback (Some (Candidate_make candidate (getStreamName ice)))].

Definition processGatheringDone (ice : t) : list Effect :=
  [candidateCallback None].

Definition changeState (ice : t) (state : Z) : t * list Effect :=
  let ice' := {| mRole := mRole ice; mState := state;
                 mStreamId := mStreamId ice |} in
  (ice', if mState ice' =? READY then [readyCallback] else []).

End Methods.

(** The signals of the agent, as the static callbacks receive them. *)
Inductive Signal :=
| NewCandidate (sdp : string)          (* "new-candidate-full" *)
| GatheringDone                        (* "candidate-gathering-done" *)
| StateChanged (state : Z)             (* "component-state-changed" *)
| Received (buf : list byte).          (* the receive callback *)

(** [make_message] is not among the sources: a received datagram is taken
    to be a data message on stream 0. *)
Definition signal `{X : Externals} (E : Env) (ice : t) (s : Signal)
  : t * list Effect :=
  match s with
  | NewCandidate sdp => (ice, processCandidate E ice sdp)
  | GatheringDone => (ice, processGatheringDone ice)
  | StateChanged st => changeState ice st
  | Received buf =>
      (ice, incoming ice {| Message.data := buf; Message.type := Data;
                            Message.stream := 0 |})
  end.

(** A session fed a sequence of signals: the final object and everything
    it did, in order. *)
Fixpoint signals `{X : Externals} (E : Env) (ice : t) (l : list Signal)
  : t * list Effect :=
  match l with
  | [] => (ice, [])
  | s :: l =>
      let '(ice1, e1) := signal E ice s in
      let '(ice2, e2) := signals E ice1 l in
      (ice2, e1 ++ e2)
  end.

End IceTransport.

(** ** The channels and the upper transports

    datachannel.cpp, dtlstransport.cpp and sctptransport.cpp are not among
    the sources: of a channel the orchestrator's view is kept (what it was
    constructed from and whether its open callback was wired), and the calls
    made on channels and transports are events. *)

Record DataChannel := {
  dc_stream : Z;
  dc_label : string;
  dc_protocol : string;
  dc_reliability : option Reliability;
  dc_transport : bool;    (* constructed on the SCTP transport *)
  dc_onOpen : bool        (* onOpen bound to triggerDataChannel *)
}.

(** [DataChannel(stream, label, protocol, reliability)]. *)
Definition DataChannel_local (stream : Z) (label protocol : string)
    (reliability : Reliability) : DataChannel :=
  {| dc_stream := stream; dc_label := label; dc_protocol := protocol;
     dc_reliability := Some reliability; dc_transport := false;
     dc_onOpen := false |}.

(** [DataChannel(stream, sctpTransport)] followed by [onOpen(...)]. *)
Definition DataChannel_remote (stream : Z) : DataChannel :=
  {| dc_stream := stream; dc_label := ""; dc_protocol := "";
     dc_reliability := None; dc_transport := true; dc_onOpen := true |}.

Record DtlsTransport := { dtls_lower : option IceTransport.t }.

Record SctpTransport := { sctp_lower : option DtlsTransport; sctp_port : Z }.

(** Calls made by the orchestrator on its collaborators, in program order. *)
Inductive Event :=
| NewIceTransport (role : Role)      (* make_shared<IceTransport> returned *)
| Ice (e : IceTransport.Effect)      (* done by the ICE transport *)
| NewDtlsTransport                   (* make_shared<DtlsTransport> returned *)
| NewSctpTransport (port : Z)        (* make_shared<SctpTransport> returned *)
| SctpReset (stream : Z)             (* mSctpTransport->reset(stream) *)
| ChannelOpen (stream : Z)           (* channel->open(mSctpTransport) *)
| ChannelIncoming (stream : Z) (m : Message.t) (* channel->incoming(message) *)
| LocalDescriptionCallback (description : string)
| LocalCandidateCallback (candidate : option string)
| DataChannelCallback (stream : Z).

(** The events that reach the embedding application. *)
Definition is_application_event (e : Event) : bool :=
  match e with
  | LocalDescriptionCallback _ | LocalCandidateCallback _
  | DataChannelCallback _ => true
  | _ => false
  end.

Definition is_NewIceTransport (e : Event) : bool :=
  match e with NewIceTransport _ => true | _ => false end.

Definition is_LocalDescriptionCallback (e : Event) : bool :=
  match e with LocalDescriptionCallback _ => true | _ => false end.

(** ** PeerConnection (peerconnection.cpp) *)

Record PeerConnection := {
  mCertificate : string;                 (* the local fingerprint *)
  mMid : string;
  mSctpPort : Z;
  mRemoteFingerprint : option string;
  mIceTransport : option IceTransport.t;
  mDtlsTransport : option DtlsTransport;
  mSctpTransport : option SctpTransport;
  mDataChannels : gmap Z DataChannel;
  mDataChannelCallback : bool;           (* is a callback set *)
  mLocalDescriptionCallback : bool;
  mLocalCandidateCallback : bool
}.

(** The constructor: [mMid("0")], [mSctpPort(5000)], everything else empty. *)
Definition PeerConnection_new (fingerprint : string) : PeerConnection :=
  {| mCertificate := fingerprint; mMid := "0"; mSctpPort := 5000;
     mRemoteFingerprint := None; mIceTransport := None;
     mDtlsTransport := None; mSctpTransport := None; mDataChannels := ∅;
     mDataChannelCallback := false; mLocalDescriptionCallback := false;
     mLocalCandidateCallback := false |}.

Definition set_mSctpPort (v : Z) (pc : PeerConnection) :=
  {| mCertificate := mCertificate pc; mMid := mMid pc; mSctpPort := v;
     mRemoteFingerprint := mRemoteFingerprint pc;
     mIceTransport := mIceTransport pc; mDtlsTransport := mDtlsTransport pc;
     mSctpTransport := mSctpTransport pc; mDataChannels := mDataChannels pc;
     mDataChannelCallback := mDataChannelCallback pc;
     mLocalDescriptionCallback := mLocalDescriptionCallback pc;
     mLocalCandidateCallback := mLocalCandidateCallback pc |}.

Definition set_mRemoteFingerprint (v : option string) (pc : PeerConnection) :=
  {| mCertificate := mCertificate pc; mMid := mMid pc;
     mSctpPort := mSctpPort pc; mRemoteFingerprint := v;
     mIceTransport := mIceTransport pc; mDtlsTransport := mDtlsTransport pc;
     mSctpTransport := mSctpTransport pc; mDataChannels := mDataChannels pc;
     mDataChannelCallback := mDataChannelCallback pc;
     mLocalDescriptionCallback := mLocalDescriptionCallback pc;
     mLocalCandidateCallback := mLocalCandidateCallback pc |}.

Definition set_mIceTransport (v : option IceTransport.t)
    (pc : PeerConnection) :=
  {| mCertificate := mCertificate pc; mMid := mMid pc;
     mSctpPort := mSctpPort pc; mRemoteFingerprint := mRemoteFingerprint pc;
     mIceTransport := v; mDtlsTransport := mDtlsTransport pc;
     mSctpTransport := mSctpTransport pc; mDataChannels := mDataChannels pc;
     mDataChannelCallback := mDataChannelCallback pc;
     mLocalDescriptionCallback := mLocalDescriptionCallback pc;
     mLocalCandidateCallback := mLocalCandidateCallback pc |}.

Definition set_mDtlsTransport (v : option DtlsTransport)
    (pc : PeerConnection) :=
  {| mCertificate := mCertificate pc; mMid := mMid pc;
     mSctpPort := mSctpPort pc; mRemoteFingerprint := mRemoteFingerprint pc;
     mIceTransport := mIceTransport pc; mDtlsTransport := v;
     mSctpTransport := mSctpTransport pc; mDataChannels := mDataChannels pc;
     mDataChannelCallback := mDataChannelCallback pc;
     mLocalDescriptionCallback := mLocalDescriptionCallback pc;
     mLocalCandidateCallback := mLocalCandidateCallback pc |}.

Definition set_mSctpTransport (v : option SctpTransport)
    (pc : PeerConnection) :=
  {| mCertificate := mCertificate pc; mMid := mMid pc;
     mSctpPort := mSctpPort pc; mRemoteFingerprint := mRemoteFingerprint pc;
     mIceTransport := mIceTransport pc; mDtlsTransport := mDtlsTransport pc;
     mSctpTransport := v; mDataChannels := mDataChannels pc;
     mDataChannelCallback := mDataChannelCallback pc;
     mLocalDescriptionCallback := mLocalDescriptionCallback pc;
     mLocalCandidateCallback := mLocalCandidateCallback pc |}.

Definition set_mDataChannels (v : gmap Z DataChannel) (pc : PeerConnection) :=
  {| mCertificate := mCertificate pc; mMid := mMid pc;
     mSctpPort := mSctpPort pc; mRemoteFingerprint := mRemoteFingerprint pc;
     mIceTransport := mIceTransport pc; mDtlsTransport := mDtlsTransport pc;
     mSctpTransport := mSctpTransport pc; mDataChannels := v;
     mDataChannelCallback := mDataChannelCallback pc;
     mLocalDescriptionCallback := mLocalDescriptionCallback pc;
     mLocalCandidateCallback := mLocalCandidateCallback pc |}.

Definition set_callbacks (dc ld lc : bool) (pc : PeerConnection) :=
  {| mCertificate := mCertificate pc; mMid := mMid pc;
     mSctpPort := mSctpPort pc; mRemoteFingerprint := mRemoteFingerprint pc;
     mIceTransport := mIceTransport pc; mDtlsTransport := mDtlsTransport pc;
     mSctpTransport := mSctpTransport pc; mDataChannels := mDataChannels pc;
     mDataChannelCallback := dc; mLocalDescriptionCallback := ld;
     mLocalCandidateCallback := lc |}.

(** [std::unordered_map::insert]: an existing key keeps its value. *)
Definition map_insert_new (k : Z) (v : DataChannel) (m : gmap Z DataChannel)
  : gmap Z DataChannel :=
  match m !! k with
  | Some _ => m
  | None => <[k := v]> m
  end.

(** *** The monad of member functions

    A call returns a value, or throws; either way it leaves an object state
    and the events emitted so far.  [Undefined] is undefined behaviour (a
    null or past-the-end dereference): the program has no meaning from
    there. *)
Inductive Outcome (A : Type) :=
| Ret (a : A) (pc : PeerConnection) (evs : list Event)
| Throw (e : exn) (pc : PeerConnection) (evs : list Event)
| Undefined.
Arguments Ret {A} a pc evs.
Arguments Throw {A} e pc evs.
Arguments Undefined {A}.

Definition M (A : Type) : Type := PeerConnection -> Outcome A.

Definition ret {A} (a : A) : M A := fun pc => Ret a pc [].

Definition bind {A B} (m : M A) (k : A -> M B) : M B :=
  fun pc =>
    match m pc with
    | Ret a pc1 e1 =>
        match k a pc1 with
        | Ret b pc2 e2 => Ret b pc2 (e1 ++ e2)
        | Throw x pc2 e2 => Throw x pc2 (e1 ++ e2)
        | Undefined => Undefined
        end
    | Throw x pc1 e1 => Throw x pc1 e1
    | Undefined => Undefined
    end.

Definition throw {A} (e : exn) : M A := fun pc => Throw e pc [].
Definition undefined {A} : M A := fun _ => Undefined.
Definition get : M PeerConnection := fun pc => Ret pc pc [].
Definition modify (f : PeerConnection -> PeerConnection) : M unit :=
  fun pc => Ret tt (f pc) [].
Definition emit (evs : list Event) : M unit := fun pc => Ret tt pc evs.

Declare Scope pc_scope.
Delimit Scope pc_scope with pc.
Notation "x <- m ;; k" := (bind m (fun x => k))
  (at level 100, m at next level, k at level 200, right associativity)
  : pc_scope.
Notation "m ;; k" := (bind m (fun _ => k))
  (at level 100, k at level 200, right associativity) : pc_scope.
Local Open Scope pc_scope.

(** The state, the events and the exception a call ends with. *)
Definition final_state {A} (o : Outcome A) : option PeerConnection :=
  match o with
  | Ret _ pc _ | Throw _ pc _ => Some pc
  | Undefined => None
  end.

Definition events {A} (o : Outcome A) : list Event :=
  match o with
  | Ret _ _ evs | Throw _ _ evs => evs
  | Undefined => []
  end.

Definition returned {A} (o : Outcome A) : option A :=
  match o with Ret a _ _ => Some a | _ => None end.

Definition thrown {A} (o : Outcome A) : option exn :=
  match o with Throw e _ _ => Some e | _ => None end.

(** *** Member functions *)

(** The loop of [createDataChannel] that looks for a free stream id.  It
    stops within 32768 iterations ([find_stream_fuel] below), so the fuel
    given by [createDataChannel] is never used up. *)
Fixpoint find_stream (fuel : nat) (channels : gmap Z DataChannel) (stream : Z)
  : option (exn + Z) :=
  match fuel with
  | O => None
  | S fuel =>
      match channels !! stream with
      | None => Some (inr stream)
      | Some _ =>
          let stream := wrap32 (stream + 2) in
          if 65535 <=? stream then
            Some (inl (runtime_error "Too many DataChannels"))
          else find_stream fuel channels stream
      end
  end.

Definition stream_fuel : nat := Z.to_nat 32769.

Section PeerConnectionMethods.
Context `{X : Externals}.
Variable E : Env.

Definition initIceTransport (role : Role) : M unit :=
  match IceTransport.new E role with
  | inl e => throw e
  | inr ice =>
      modify (set_mIceTransport (Some ice)) ;; emit [NewIceTransport role]
  end.

Definition initSctpTransport : M unit :=
  pc <- get ;;
  match SctpTransport_new E with
  | Some e => throw e
  | None =>
      modify (set_mSctpTransport
                (Some {| sctp_lower := mDtlsTransport pc;
                         sctp_port := mSctpPort pc |})) ;;
      emit [NewSctpTransport (mSctpPort pc)]
  end.

Definition initDtlsTransport : M unit :=
  pc <- get ;;
  match DtlsTransport_new E with
  | Some e => throw e
  | None =>
      modify (set_mDtlsTransport
                (Some {| dtls_lower := mIceTransport pc |})) ;;
      emit [NewDtlsTransport]
  end.

Definition checkFingerprint (pc : PeerConnection) (fingerprint : string)
  : bool :=
  match mRemoteFingerprint pc with
  | Some remote => String.eqb remote fingerprint
  | None => false
  end.

Definition triggerLocalDescription : M unit :=
  pc <- get ;;
  match mLocalDescriptionCallback pc, mIceTransport pc with
  | true, Some ice =>
      let desc := IceTransport.getLocalDescription E ice in
      let desc := setFingerprint (mCertificate pc) desc in
      let desc := setSctpPort (mSctpPort pc) desc in
      emit [LocalDescriptionCallback (Description_string desc)]
  | _, _ => ret tt
  end.

Definition triggerLocalCandidate (candidate : option Candidate) : M unit :=
  pc <- get ;;
  if mLocalCandidateCallback pc then
    emit [LocalCandidateCallback
            match candidate with
            | Some c => Some (Candidate_string c)
            | None => None
            end]
  else ret tt.

Definition triggerDataChannel (dataChannel : DataChannel) : M unit :=
  pc <- get ;;
  if mDataChannelCallback pc then
    emit [DataChannelCallback (dc_stream dataChannel)]
  else ret tt.

(** What the ICE transport does during a call reaches the orchestrator
    through the two callbacks bound in [initIceTransport]; the rest stays
    below, as events. *)
Definition perform (e : IceTransport.Effect) : M unit :=
  match e with
  | IceTransport.candidateCallback c => triggerLocalCandidate c
  | IceTransport.readyCallback => initDtlsTransport
  | _ => emit [Ice e]
  end.

Fixpoint perform_all (l : list IceTransport.Effect) : M unit :=
  match l with
  | [] => ret tt
  | e :: l => perform e ;; perform_all l
  end.

(** [mIceTransport->setRemoteDescription(desc)]. *)
Definition ice_setRemoteDescription (desc : Description) : M unit :=
  pc <- get ;;
  match mIceTransport pc with
  | None => undefined
  | Some ice =>
      let '(effects, r) := IceTransport.setRemoteDescription E ice desc in
      perform_all effects ;;
      match r with Some e => throw e | None => ret tt end
  end.

(** [mIceTransport->gatherLocalCandidates()]. *)
Definition ice_gatherLocalCandidates : M unit :=
  pc <- get ;;
  match mIceTransport pc with
  | None => undefined
  | Some ice =>
      let '(effects, r) := IceTransport.gatherLocalCandidates E ice in
      perform_all effects ;;
      match r with Some e => throw e | None => ret tt end
  end.

Definition setRemoteDescription (description : string) : M unit :=
  let desc := Description_parse ActPass description in
  match d_fingerprint desc with
  | Some fingerprint => modify (set_mRemoteFingerprint (Some fingerprint))
  | None => ret tt
  end ;;
  match d_sctpPort desc with
  | Some sctpPort => modify (set_mSctpPort sctpPort)
  | None => ret tt
  end ;;
  pc <- get ;;
  match mIceTransport pc with
  | None =>
      initIceTransport ActPass ;;
      ice_setRemoteDescription desc ;;
      triggerLocalDescription ;;
      ice_gatherLocalCandidates
  | Some _ => ice_setRemoteDescription desc
  end.

Definition setRemoteCandidate (candidate : string) : M unit :=
  pc <- get ;;
  let cand := Candidate_make candidate (mMid pc) in
  match mIceTransport pc with
  | Some ice =>
      let '(effects, _) := IceTransport.addRemoteCandidate E ice cand in
      perform_all effects
  | None => ret tt
  end.

Definition createDataChannel (label protocol : string)
    (reliability : Reliability) : M DataChannel :=
  pc <- get ;;
  let role := match mIceTransport pc with
              | Some ice => IceTransport.role ice
              | None => Active
              end in
  let stream := if decide (role = Active) then 0 else 1 in
  match find_stream stream_fuel (mDataChannels pc) stream with
  | None => undefined
  | Some (inl e) => throw e
  | Some (inr stream) =>
      let channel := DataChannel_local stream label protocol reliability in
      modify (set_mDataChannels
                (map_insert_new stream channel (mDataChannels pc))) ;;
      match mIceTransport pc with
      | None =>
          initIceTransport Active ;;
          triggerLocalDescription ;;
          ice_gatherLocalCandidates
      | Some _ =>
          match mSctpTransport pc with
          | Some _ =>
              if SctpTransport_isReady E then emit [ChannelOpen stream]
              else ret tt
          | None => ret tt
          end
      end ;;
      ret channel
  end.

Definition onDataChannel (callback : bool) : M unit :=
  modify (fun pc => set_callbacks callback (mLocalDescriptionCallback pc)
                      (mLocalCandidateCallback pc) pc).

Definition onLocalDescription (callback : bool) : M unit :=
  modify (fun pc => set_callbacks (mDataChannelCallback pc) callback
                      (mLocalCandidateCallback pc) pc).

Definition onLocalCandidate (callback : bool) : M unit :=
  modify (fun pc => set_callbacks (mDataChannelCallback pc)
                      (mLocalDescriptionCallback pc) callback pc).

Definition forwardMessage (message : Message.t) : M unit :=
  pc <- get ;;
  match mIceTransport pc, mSctpTransport pc with
  | Some ice, Some _ =>
      let stream := Message.stream message in
      match mDataChannels pc !! stream with
      | Some channel => emit [ChannelIncoming stream message]
      | None =>
          let remoteParity :=
            if decide (IceTransport.role ice = Active) then 1 else 0 in
          if decide (Message.type message = Control) then
            match Message.data message with
            | [] => undefined       (* [*message->data()] of an empty vector *)
            | b :: _ =>
                if Byte.eqb b x03 && (stream mod 2 =? remoteParity) then
                  let channel := DataChannel_remote stream in
                  modify (set_mDataChannels
                            (map_insert_new stream channel
                               (mDataChannels pc))) ;;
                  emit [ChannelIncoming stream message]
                else emit [SctpReset stream]
            end
          else emit [SctpReset stream]
      end
  | _, _ => throw (logic_error "Got a DataChannel message without transport")
  end.

Definition openDataChannels : M unit :=
  pc <- get ;;
  emit (map (fun kv => ChannelOpen (fst kv)) (map_to_list (mDataChannels pc))).

End PeerConnectionMethods.

(** ** The lifetime of a PeerConnection

    What happens to the object: the application calls its public member
    functions, the agent of its ICE transport signals, and the upper
    transports and the channels call the member functions bound into them
    ([initDtlsTransport] is bound into the ICE transport and reached through
    [perform]). *)
Inductive Call :=
| SetRemoteDescription (description : string)
| SetRemoteCandidate (candidate : string)
| CreateDataChannel (label protocol : string) (reliability : Reliability)
| OnDataChannel (callback : bool)
| OnLocalDescription (callback : bool)
| OnLocalCandidate (callback : bool)
| IceSignal (s : IceTransport.Signal)
| DtlsReady                      (* the DTLS transport: initSctpTransport *)
| SctpReady                      (* the SCTP transport: openDataChannels *)
| SctpMessage (m : Message.t)    (* the SCTP transport: forwardMessage *)
| ChannelOpened (stream : Z).    (* a channel's onOpen: triggerDataChannel *)

Section Lifetime.
Context `{X : Externals}.

Definition step (E : Env) (c : Call) : M unit :=
  match c with
  | SetRemoteDescription description => setRemoteDescription E description
  | SetRemoteCandidate candidate => setRemoteCandidate E candidate
  | CreateDataChannel label protocol reliability =>
      createDataChannel E label protocol reliability ;; ret tt
  | OnDataChannel callback => onDataChannel callback
  | OnLocalDescription callback => onLocalDescription callback
  | OnLocalCandidate callback => onLocalCandidate callback
  | IceSignal s =>
      pc <- get ;;
      match mIceTransport pc with
      | Some ice =>
          let '(ice, effects) := IceTransport.signal E ice s in
          modify (set_mIceTransport (Some ice)) ;; perform_all E effects
      | None => ret tt
      end
  | DtlsReady => initSctpTransport E
  | SctpReady => openDataChannels
  | SctpMessage m => forwardMessage m
  | ChannelOpened stream =>
      pc <- get ;;
      match mDataChannels pc !! stream with
      | Some channel =>
          if dc_onOpen channel then triggerDataChannel channel else ret tt
      | None => ret tt
      end
  end.

(** A sequence of calls, each with the answers of the libraries during it.
    A caller may catch what a call throws and go on, so the run goes on from
    the state the throwing call left; it has no meaning after undefined
    behaviour. *)
Fixpoint run (l : list (Env * Call)) (pc : PeerConnection) (log : list Event)
  : option (PeerConnection * list Event) :=
  match l with
  | [] => Some (pc, log)
  | (E, c) :: l =>
      let o := step E c pc in
      match final_state o with
      | Some pc' => run l pc' (log ++ events o)
      | None => None
      end
  end.

(** A sequence of [createDataChannel] calls: the state before each call and
    what the call ended with. *)
Fixpoint createDataChannels
    (l : list (Env * (string * string * Reliability))) (pc : PeerConnection)
  : list (PeerConnection * Outcome DataChannel) :=
  match l with
  | [] => []
  | (E, (label, protocol, reliability)) :: l =>
      let o := createDataChannel E label protocol reliability pc in
      (pc, o) ::
      match final_state o with
      | Some pc' => createDataChannels l pc'
      | None => []
      end
  end.

(** The remote fingerprint on record after a sequence of calls: that of the
    last [setRemoteDescription] whose description carries one. *)
Definition record_fingerprint (r : option string) (c : Env * Call)
  : option string :=
  match snd c with
  | SetRemoteDescription description =>
      match d_fingerprint (Description_parse ActPass description) with
      | Some fingerprint => Some fingerprint
      | None => r
      end
  | _ => r
  end.

Definition recorded_fingerprint (l : list (Env * Call)) : option string :=
  fold_left record_fingerprint l None.

End Lifetime.

(** ** Notions the statements below use *)

(** The parity of the ids [createDataChannel] hands out: even for the active
    side (or before any ICE transport exists), odd otherwise. *)
Definition local_parity (pc : PeerConnection) : Z :=
  match mIceTransport pc with
  | Some ice => if decide (IceTransport.role ice = Active) then 0 else 1
  | None => 0
  end.

(** The parity a peer-initiated stream must have. *)
Definition remote_parity (ice : IceTransport.t) : Z :=
  if decide (IceTransport.role ice = Active) then 1 else 0.

(** [k] is the lowest id of parity [p] that is not a key of [m]. *)
Definition lowest_free (p : Z) (m : gmap Z DataChannel) (k : Z) : Prop :=
  0 <= k /\ k mod 2 = p /\ m !! k = None /\
  forall j, 0 <= j < k -> j mod 2 = p -> is_Some (m !! j).

(** Every id of parity [p] below 65535 is a key of [m]. *)
Definition exhausted (p : Z) (m : gmap Z DataChannel) : Prop :=
  forall j, 0 <= j < 65535 -> j mod 2 = p -> is_Some (m !! j).

Definition too_many : exn := runtime_error "Too many DataChannels".

(** What a call of [createDataChannel] in the state [fst po] ended with,
    [snd po]: either every id of the local parity is taken and the call
    threw leaving the object as it was, or the channel is registered under
    the lowest free id of the local parity, and was returned unless the
    start of the ICE transport threw. *)
Definition allocates_lowest_free (po : PeerConnection * Outcome DataChannel)
  : Prop :=
  let pre := fst po in
  let o := snd po in
  let p := local_parity pre in
  let m := mDataChannels pre in
  (exhausted p m /\ o = Throw too_many pre []) \/
  (exists k ch,
     lowest_free p m k /\ k < 65535 /\ dc_stream ch = k /\
     mDataChannels <$> final_state o = Some (<[k := ch]> m) /\
     (returned o = Some ch \/
      (mIceTransport pre = None /\ is_Some (thrown o)))).

(** The ids of the channels a sequence of calls returned. *)
Definition returned_streams (l : list (PeerConnection * Outcome DataChannel))
  : list Z :=
  omap (fun po => dc_stream <$> returned (snd po)) l.

(** The ICE transports a connection holds (none or one), and the ICE
    transports constructed among events. *)
Definition ice_instances (pc : PeerConnection) : nat :=
  match mIceTransport pc with Some _ => 1 | None => 0 end.

Definition ice_created (evs : list Event) : nat :=
  length (List.filter is_NewIceTransport evs).

(** [P] holds of the state and the events a call ended with. *)
Definition ends_with {A} (o : Outcome A)
    (P : PeerConnection -> list Event -> Prop) : Prop :=
  match o with
  | Ret _ pc evs | Throw _ pc evs => P pc evs
  | Undefined => True
  end.

(** The number of invocations of the ready callback among effects. *)
Definition is_readyCallback (e : IceTransport.Effect) : bool :=
  match e with IceTransport.readyCallback => true | _ => false end.

Definition ready_calls (l : list IceTransport.Effect) : nat :=
  length (List.filter is_readyCallback l).

(** The ready callback as the specification words it: whatever the sequence
    of state changes, the callback is invoked exactly once if the ready
    state is entered at all. *)
Definition ready_exactly_once `{X : Externals} (E : Env)
    (ice : IceTransport.t) (states : list Z) : Prop :=
  In READY states ->
  ready_calls
    (snd (IceTransport.signals E ice (IceTransport.StateChanged <$> states)))
  = 1%nat.

(** The two ways [forwardMessage] treats a message on an unknown stream. *)
Definition accepted (pc : PeerConnection) (m : Message.t) (o : Outcome unit)
  : Prop :=
  let stream := Message.stream m in
  o = Ret tt
        (set_mDataChannels
           (<[stream := DataChannel_remote stream]> (mDataChannels pc)) pc)
        [ChannelIncoming stream m].

Definition rejected (pc : PeerConnection) (m : Message.t) (o : Outcome unit)
  : Prop :=
  o = Ret tt pc [SctpReset (Message.stream m)].

(** The open-channel pattern as the code tests it: a control message whose
    first payload byte is 0x03, on a stream of the remote parity. *)
Definition open_message (ice : IceTransport.t) (m : Message.t) : Prop :=
  Message.type m = Control /\
  (exists rest, Message.data m = x03 :: rest) /\
  Message.stream m mod 2 = remote_parity ice.

(** The pattern as the specification words it: the payload is the single
    byte 0x03. *)
Definition open_message_single_byte (ice : IceTransport.t) (m : Message.t)
  : Prop :=
  Message.type m = Control /\
  Message.data m = [x03] /\
  Message.stream m mod 2 = remote_parity ice.

(** [forwardMessage] on an unknown stream as the specification words it:
    the single-byte pattern is accepted, everything else is rejected. *)
Definition forwardMessage_single_byte (pc : PeerConnection)
    (ice : IceTransport.t) (m : Message.t) : Prop :=
  (open_message_single_byte ice m -> accepted pc m (forwardMessage m pc)) /\
  (~ open_message_single_byte ice m -> rejected pc m (forwardMessage m pc)).

(** ** Concrete collaborators, for the examples *)

(** A description layer that keeps the text as it is; a description that is
    not empty carries itself as fingerprint.  READY is libnice's
    NICE_COMPONENT_STATE_READY. *)
Definition plain : Externals :=
  {| Description_parse := fun role sdp =>
       {| d_role := role; d_sdp := sdp;
          d_fingerprint := if String.eqb sdp "" then None else Some sdp;
          d_sctpPort := None |};
     Description_string := d_sdp;
     Candidate_make := Build_Candidate;
     Candidate_string := c_candidate;
     READY := 4 |}.

(** Libraries that succeed at everything; [accept] is what the agent says of
    a remote candidate. *)
Definition libs (accept : bool) : Env :=
  {| nice_agent_new := true;
     nice_agent_add_stream := 1;
     nice_agent_generate_local_sdp := "local";
     nice_agent_parse_remote_sdp := fun _ => 0;
     nice_agent_gather_candidates := true;
     nice_agent_parse_remote_candidate_sdp := fun _ => accept;
     nice_agent_set_remote_candidates := 1;
     nice_agent_get_stream_name := "application";
     IceTransport_mState := 0;
     DtlsTransport_new := None;
     SctpTransport_new := None;
     SctpTransport_isReady := true |}.

Definition session (role : Role) : IceTransport.t :=
  {| IceTransport.mRole := role; IceTransport.mState := 4;
     IceTransport.mStreamId := 1 |}.

(** A connection whose three transports exist, with the given role and
    channel registry. *)
Definition connected (role : Role) (channels : gmap Z DataChannel)
  : PeerConnection :=
  {| mCertificate := "local"; mMid := "0"; mSctpPort := 5000;
     mRemoteFingerprint := None;
     mIceTransport := Some (session role);
     mDtlsTransport := Some {| dtls_lower := Some (session role) |};
     mSctpTransport :=
       Some {| sctp_lower := Some {| dtls_lower := Some (session role) |};
               sctp_port := 5000 |};
     mDataChannels := channels;
     mDataChannelCallback := true; mLocalDescriptionCallback := true;
     mLocalCandidateCallback := true |}.

(** A DATA_CHANNEL_OPEN message as a peer sends it: the message type 0x03,
    then channel type, priority, reliability parameter and the lengths of an
    empty label and an empty protocol (twelve bytes). *)
Definition open_request (stream : Z) : Message.t :=
  {| Message.data := [x03; x00; x00; x00; x00; x00; x00; x00; x00; x00; x00;
                      x00];
     Message.type := Control; Message.stream := stream |}.

(** A channel created earlier under the id [stream]. *)
Definition taken (stream : Z) : DataChannel :=
  DataChannel_local stream "" "" {| unordered := false; rexmit := 0 |}.

(** A lifetime: the application sets its local-description callback, gets
    an offer, then an updated description. *)
Definition two_descriptions : list (Env * Call) :=
  [(libs true, OnLocalDescription true);
   (libs true, SetRemoteDescription "offer");
   (libs true, SetRemoteDescription "update")].

(** The connection and the events [two_descriptions] ends with. *)
Definition answering : PeerConnection :=
  {| mCertificate := "local"; mMid := "0"; mSctpPort := 5000;
     mRemoteFingerprint := Some "update";
     mIceTransport :=
       Some {| IceTransport.mRole := ActPass; IceTransport.mState := 0;
               IceTransport.mStreamId := 1 |};
     mDtlsTransport := None; mSctpTransport := None; mDataChannels := ∅;
     mDataChannelCallback := false; mLocalDescriptionCallback := true;
     mLocalCandidateCallback := false |}.

Definition answering_log : list Event :=
  [NewIceTransport ActPass;
   Ice (IceTransport.parse_remote_sdp "offer");
   LocalDescriptionCallback "local";
   Ice (IceTransport.gather_candidates 1);
   Ice (IceTransport.parse_remote_sdp "update")].

(** A registry holding every id of parity [p] below 65535. *)
Definition full_registry (p : Z) : gmap Z DataChannel :=
  list_to_map
    ((fun i => (2 * i + p, taken (2 * i + p))) <$> seqZ 0 32768).

(** ** Further notions: the registry, the transports and the events of a
    lifetime *)

(** The registry as the two inserting member functions keep it, for a
    connection holding [ice]: every channel sits under its own stream id; a
    channel created by [createDataChannel] has an id below 65535; a channel
    opened by the peer sits on a stream of the remote parity, and there is
    none before an ICE transport exists. *)
Definition registry_ok (ice : option IceTransport.t)
    (m : gmap Z DataChannel) : Prop :=
  forall k ch, m !! k = Some ch ->
    dc_stream ch = k /\
    (dc_transport ch = false -> 0 <= k < 65535) /\
    (dc_transport ch = true ->
     exists i, ice = Some i /\ k mod 2 = remote_parity i).

Definition registry_wf (pc : PeerConnection) : Prop :=
  registry_ok (mIceTransport pc) (mDataChannels pc).

(** The ICE transport [pc'] holds is the one [pc] holds, up to its state. *)
Definition same_session (pc pc' : PeerConnection) : Prop :=
  forall ice, mIceTransport pc = Some ice ->
  exists ice', mIceTransport pc' = Some ice' /\
    IceTransport.mRole ice' = IceTransport.mRole ice /\
    IceTransport.mStreamId ice' = IceTransport.mStreamId ice.

Definition is_gather (e : Event) : bool :=
  match e with Ice (IceTransport.gather_candidates _) => true | _ => false end.

Definition is_NewDtlsTransport (e : Event) : bool :=
  match e with NewDtlsTransport => true | _ => false end.

Definition count (f : Event -> bool) (evs : list Event) : nat :=
  length (List.filter f evs).

(** The SCTP port on record after a sequence of calls: that of the last
    [setRemoteDescription] whose description carries one, else the 5000 of
    the constructor. *)
Definition record_port `{X : Externals} (p : Z) (c : Env * Call) : Z :=
  match snd c with
  | SetRemoteDescription description =>
      match d_sctpPort (Description_parse ActPass description) with
      | Some port => port
      | None => p
      end
  | _ => p
  end.

Definition recorded_port `{X : Externals} (l : list (Env * Call)) : Z :=
  fold_left record_port l 5000.

(** The streams among the channels opened by events. *)
Definition opened (evs : list Event) : list Z :=
  omap (fun e => match e with ChannelOpen s => Some s | _ => None end) evs.

(** ** A lifetime, for the examples *)

Definition reliable : Reliability := {| unordered := false; rexmit := 0 |}.

(** The application sets its callbacks and creates a channel, which starts
    the ICE transport on the active side. *)
Definition busy_start : list (Env * Call) :=
  [(libs true, OnLocalDescription true);
   (libs true, OnLocalCandidate true);
   (libs true, OnDataChannel true);
   (libs true, CreateDataChannel "chat" "" reliable)].

(** The answer arrives, the agent gathers and connects, the upper transports
    come up, the peer opens a channel on stream 1, and the application
    creates a second channel. *)
Definition busy_rest : list (Env * Call) :=
  [(libs true, SetRemoteDescription "answer");
   (libs true, IceSignal (IceTransport.NewCandidate "host"));
   (libs true, IceSignal IceTransport.GatheringDone);
   (libs true, IceSignal (IceTransport.StateChanged 4));
   (libs true, DtlsReady);
   (libs true, SctpReady);
   (libs true, SctpMessage (open_request 1));
   (libs true, ChannelOpened 1);
   (libs true, CreateDataChannel "files" "" reliable)].

Definition run_end (r : option (PeerConnection * list Event))
  : PeerConnection :=
  match r with Some (pc, _) => pc | None => PeerConnection_new "" end.

Definition run_log (r : option (PeerConnection * list Event)) : list Event :=
  match r with Some (_, log) => log | None => [] end.

Definition busy_mid : PeerConnection :=
  Eval vm_compute in
    run_end (run (X := plain) busy_start (PeerConnection_new "local") []).

Definition busy_mid_log : list Event :=
  Eval vm_compute in
    run_log (run (X := plain) busy_start (PeerConnection_new "local") []).

Definition busy_end : PeerConnection :=
  Eval vm_compute in
    run_end (run (X := plain) busy_rest busy_mid busy_mid_log).

Definition busy_log : list Event :=
  Eval vm_compute in
    run_log (run (X := plain) busy_rest busy_mid busy_mid_log).

(** Libraries as [libs true], except that the agent finds two candidates in
    the remote description ([nice_agent_parse_remote_sdp] returns how many
    it added). *)
Definition libs_candidates : Env :=
  {| nice_agent_new := true;
     nice_agent_add_stream := 1;
     nice_agent_generate_local_sdp := "local";
     nice_agent_parse_remote_sdp := fun _ => 2;
     nice_agent_gather_candidates := true;
     nice_agent_parse_remote_candidate_sdp := fun _ => true;
     nice_agent_set_remote_candidates := 1;
     nice_agent_get_stream_name := "application";
     IceTransport_mState := 0;
     DtlsTransport_new := None;
     SctpTransport_new := None;
     SctpTransport_isReady := true |}.


(** A new connection whose application listens for the local description. *)
Definition listening : PeerConnection :=
  set_callbacks false true false (PeerConnection_new "local").

(** A description layer as [plain], in which the description "port 6000"
    carries that SCTP port. *)
Definition ported : Externals :=
  {| Description_parse := fun role sdp =>
       {| d_role := role; d_sdp := sdp; d_fingerprint := None;
          d_sctpPort := if String.eqb sdp "port 6000" then Some 6000
                        else None |};
     Description_string := d_sdp;
     Candidate_make := Build_Candidate;
     Candidate_string := c_candidate;
     READY := 4 |}.

(** ** The choice of a STUN server in the IceTransport constructor

    The loop over [config.servers] of the constructor (icetransport.cpp,
    lines 62-101), which [IceTransport.new] leaves out.  The servers are
    tried in the order [std::shuffle] left them in: the functions take that
    order.  [getaddrinfo], [getnameinfo] and [std::stoul] are the resolver's:
    an address of the result list comes with what [getnameinfo] makes of it
    (numeric host and service), or nothing when it fails. *)

Record IceServer := { hostname : string; service : string }.

Record addrinfo := {
  ai_family : Z;
  ai_numeric : option (string * string)
}.

Definition AF_INET : Z := 2.

Record Resolver := {
  getaddrinfo : string -> string -> option (list addrinfo); (* None: failed *)
  stoul : string -> option Z         (* None: std::stoul throws *)
}.

Inductive StunEffect :=
| resolve (node service : string)          (* getaddrinfo *)
| set_stun_server (node : string)          (* g_object_set "stun-server" *)
| set_stun_server_port (port : Z).         (* g_object_set "stun-server-port" *)

(** The inner loop, over the addresses of one server: the first IPv4 address
    with a numeric form is given to the agent.  [std::stoul] throws an
    exception derived from [std::logic_error], after the server was set. *)
Fixpoint stun_first_numeric (R : Resolver) (result : list addrinfo)
  : list StunEffect * (exn + bool) :=
  match result with
  | [] => ([], inr false)
  | p :: result =>
      if ai_family p =? AF_INET then
        match ai_numeric p with
        | Some (nodebuffer, servbuffer) =>
            match stoul R servbuffer with
            | Some port =>
                ([set_stun_server nodebuffer; set_stun_server_port port],
                 inr true)
            | None => ([set_stun_server nodebuffer], inl (logic_error "stoul"))
            end
        | None => stun_first_numeric R result
        end
      else stun_first_numeric R result
  end.

(** The outer loop: what was done, and [success] (or what was thrown). *)
Fixpoint stun_select (R : Resolver) (servers : list IceServer)
  : list StunEffect * (exn + bool) :=
  match servers with
  | [] => ([], inr false)
  | server :: servers =>
      if String.eqb (hostname server) "" then stun_select R servers
      else
        let service :=
          if String.eqb (service server) "" then "3478"
          else service server in
        match getaddrinfo R (hostname server) service with
        | None =>
            let '(effects, r) := stun_select R servers in
            (resolve (hostname server) service :: effects, r)
        | Some result =>
            let '(e1, r1) := stun_first_numeric R result in
            match r1 with
            | inr false =>
                let '(e2, r2) := stun_select R servers in
                (resolve (hostname server) service :: e1 ++ e2, r2)
            | _ => (resolve (hostname server) service :: e1, r1)
            end
        end
  end.

Definition is_resolve (e : StunEffect) : bool :=
  match e with resolve _ _ => true | _ => false end.

Definition is_set_stun_server (e : StunEffect) : bool :=
  match e with set_stun_server _ => true | _ => false end.

(** A resolver for the examples: "stun.example.org" has an IPv6 address and
    the IPv4 address 192.0.2.1; no other name resolves. *)
Definition example_resolver : Resolver :=
  {| getaddrinfo := fun node service =>
       if String.eqb node "stun.example.org" then
         Some [{| ai_family := 10;
                  ai_numeric := Some ("2001:db8::1", service) |};
               {| ai_family := 2;
                  ai_numeric := Some ("192.0.2.1", service) |}]
       else None;
     stoul := fun s => if String.eqb s "3478" then Some 3478 else None |}.

Definition example_servers : list IceServer :=
  [{| hostname := ""; service := "19302" |};
   {| hostname := "stun.invalid"; service := "3478" |};
   {| hostname := "stun.example.org"; service := "" |};
   {| hostname := "stun.unused.org"; service := "3478" |}].

(** The streams of the channels that events open or hand a message to. *)
Definition channel_of (e : Event) : option Z :=
  match e with
  | ChannelOpen s | ChannelIncoming s _ => Some s
  | _ => None
  end.

(** * Properties *)

(** ** The ICE transport *)

Section IceTransportFacts.
Context `{X : Externals}.
Variable E : Env.

Lemma changeState_effects (ice : IceTransport.t) (state : Z) :
  snd (IceTransport.changeState ice state) =
  if state =? READY then [IceTransport.readyCallback] else [].
Proof. reflexivity. Qed.

(** A session that was constructed has a stream: the constructor throws
    when the agent returns the stream id 0. *)
Lemma new_stream_established (role : Role) (ice : IceTransport.t) :
  IceTransport.new E role = inr ice -> IceTransport.mStreamId ice <> 0.
Proof.
  unfold IceTransport.new.
  destruct (negb (nice_agent_new E)); [discriminate|].
  destruct (nice_agent_add_stream E =? 0) eqn:Hs; [discriminate|].
  intros [= <-]. simpl. now apply Z.eqb_neq.
Qed.

(** C6, as the code has it: the ready callback is invoked at every state
    change whose new state is READY, once each, and at no other: fed a
    sequence of state changes, the session calls it once per READY in the
    sequence, in order.  So it is called exactly once when exactly one
    change enters READY, and again each time READY is entered again. *)
Theorem ready_callback_per_transition (ice : IceTransport.t)
    (states : list Z) :
  snd (IceTransport.signals E ice (IceTransport.StateChanged <$> states)) =
  (fun _ => IceTransport.readyCallback)
    <$> List.filter (fun s => s =? READY) states.
Proof.
  revert ice. induction states as [|s states IH]; intros ice; [reflexivity|].
  cbn [fmap list_fmap IceTransport.signals IceTransport.signal].
  specialize (IH (fst (IceTransport.changeState ice s))).
  destruct (IceTransport.changeState ice s) as [ice1 e1] eqn:Hc.
  pose proof (changeState_effects ice s) as He. rewrite Hc in He.
  cbn [fst snd] in IH, He.
  destruct (IceTransport.signals E ice1 _) as [ice2 e2].
  cbn [snd] in IH |- *. subst e1 e2.
  cbn [List.filter]. destruct (s =? READY); reflexivity.
Qed.

(** C9: on a session without a stream (stream id 0) [send] transmits nothing
    and returns false; on a session with a stream it hands the datagram to
    the agent, on component 1 of that stream, and returns true. *)
Theorem send_needs_stream (ice : IceTransport.t) (message : Message.t) :
  (IceTransport.mStreamId ice = 0 ->
   IceTransport.send ice message = ([], false)) /\
  (IceTransport.mStreamId ice <> 0 ->
   IceTransport.send ice message =
   ([IceTransport.nice_agent_send (IceTransport.mStreamId ice) 1
       (Message.size message) (Message.data message)], true)).
Proof.
  unfold IceTransport.send, IceTransport.outgoing. split; intros H.
  - now rewrite H.
  - apply Z.eqb_neq in H. now rewrite H.
Qed.

End IceTransportFacts.

(** C6 fails as stated: connected (3), ready (4), connected again, ready
    again invokes the callback twice. *)
Lemma ready_callback_twice :
  ~ ready_exactly_once (X := plain) (libs true) (session ActPass) [3; 4; 3; 4].
Proof.
  unfold ready_exactly_once. intros H.
  assert (Hin : In (READY (Externals := plain)) [3; 4; 3; 4])
    by (simpl; tauto).
  specialize (H Hin). vm_compute in H. discriminate.
Qed.

(** ** The orchestrator *)

(** Unfolding the monad on a given state. *)
Ltac run_monad :=
  cbv [bind ret get modify emit throw undefined]; cbn [app].

Section PeerConnectionFacts.
Context `{X : Externals}.
Variable E : Env.

(** What the session does while it takes a remote candidate stays below the
    orchestrator: neither callback is called. *)
Lemma addRemoteCandidate_no_upcall (ice : IceTransport.t) (c : Candidate) :
  forallb (fun e => negb (IceTransport.is_upcall e))
    (fst (IceTransport.addRemoteCandidate E ice c)) = true.
Proof.
  unfold IceTransport.addRemoteCandidate.
  destruct (negb _); reflexivity.
Qed.

Lemma perform_all_below (l : list IceTransport.Effect) (pc : PeerConnection) :
  forallb (fun e => negb (IceTransport.is_upcall e)) l = true ->
  perform_all E l pc = Ret tt pc (Ice <$> l).
Proof.
  induction l as [|e l IH]; intros H; [reflexivity|].
  cbn [forallb] in H. apply andb_prop in H as [He Hl].
  destruct e; try discriminate He;
    cbn [perform_all perform]; run_monad; now rewrite (IH Hl).
Qed.

Lemma below_not_application (l : list IceTransport.Effect) :
  List.filter is_application_event (Ice <$> l) = [].
Proof. induction l as [|e l IH]; [reflexivity|]. exact IH. Qed.

(** C7: before any ICE transport exists [setRemoteCandidate] returns
    normally, calls nothing and leaves the object as it was. *)
Theorem setRemoteCandidate_before_ice (candidate : string)
    (pc : PeerConnection) :
  mIceTransport pc = None ->
  setRemoteCandidate E candidate pc = Ret tt pc [].
Proof.
  intros H. unfold setRemoteCandidate. run_monad. now rewrite H.
Qed.

(** C10: with an ICE transport, [setRemoteCandidate] returns normally and
    leaves the object as it was whatever [addRemoteCandidate] answers: its
    result is dropped, the only calls made are those of the session on its
    agent, and no application callback is called. *)
Theorem setRemoteCandidate_drops_result (candidate : string)
    (pc : PeerConnection) (ice : IceTransport.t) :
  mIceTransport pc = Some ice ->
  let cand := Candidate_make candidate (mMid pc) in
  setRemoteCandidate E candidate pc =
    Ret tt pc (Ice <$> fst (IceTransport.addRemoteCandidate E ice cand)) /\
  List.filter is_application_event
    (events (setRemoteCandidate E candidate pc)) = [].
Proof.
  intros H cand.
  assert (Heq : setRemoteCandidate E candidate pc =
    Ret tt pc (Ice <$> fst (IceTransport.addRemoteCandidate E ice cand))).
  { unfold setRemoteCandidate. run_monad. rewrite H. fold cand.
    pose proof (addRemoteCandidate_no_upcall ice cand) as Hb.
    destruct (IceTransport.addRemoteCandidate E ice cand) as [effects r].
    cbn [fst] in *. now rewrite (perform_all_below _ _ Hb). }
  split; [exact Heq|]. rewrite Heq. cbn [events].
  apply below_not_application.
Qed.

(** C8: when gathering is done the session calls the candidate callback with
    the empty value, and [triggerLocalCandidate] hands the application's
    callback an empty value for an empty one and the candidate's text for a
    candidate: the end-of-candidates signal of the agent reaches the
    application as one call with the empty value. *)
Theorem end_of_candidates_forwarded (pc : PeerConnection)
    (ice : IceTransport.t) :
  mLocalCandidateCallback pc = true ->
  mIceTransport pc = Some ice ->
  IceTransport.processGatheringDone ice = [IceTransport.candidateCallback None]
  /\ triggerLocalCandidate None pc = Ret tt pc [LocalCandidateCallback None]
  /\ (forall c, triggerLocalCandidate (Some c) pc =
                Ret tt pc [LocalCandidateCallback (Some (Candidate_string c))])
  /\ step E (IceSignal IceTransport.GatheringDone) pc =
     Ret tt pc [LocalCandidateCallback None].
Proof.
  intros Hcb Hice. repeat split.
  - unfold triggerLocalCandidate. run_monad. now rewrite Hcb.
  - intros c. unfold triggerLocalCandidate. run_monad. now rewrite Hcb.
  - cbn [step]. run_monad. rewrite Hice.
    cbn [IceTransport.signal IceTransport.processGatheringDone perform_all
         perform].
    unfold triggerLocalCandidate. run_monad.
    destruct pc; cbn in *. subst. reflexivity.
Qed.

(** A message on a registered stream goes to its channel. *)
Lemma forwardMessage_known_stream (pc : PeerConnection)
    (ice : IceTransport.t) (sctp : SctpTransport) (m : Message.t)
    (channel : DataChannel) :
  mIceTransport pc = Some ice ->
  mSctpTransport pc = Some sctp ->
  mDataChannels pc !! Message.stream m = Some channel ->
  forwardMessage m pc = Ret tt pc [ChannelIncoming (Message.stream m) m].
Proof.
  intros Hice Hsctp Hreg. unfold forwardMessage. run_monad.
  now rewrite Hice, Hsctp, Hreg.
Qed.

(** A message while a transport is missing is a logic error. *)
Lemma forwardMessage_without_transport (pc : PeerConnection)
    (m : Message.t) :
  mIceTransport pc = None \/ mSctpTransport pc = None ->
  forwardMessage m pc =
  Throw (logic_error "Got a DataChannel message without transport") pc [].
Proof.
  intros H. unfold forwardMessage. run_monad.
  destruct H as [H|H]; rewrite H; [reflexivity|].
  now destruct (mIceTransport pc).
Qed.

(** C1, as the code has it: a message on a stream that is not in the
    registry, delivered while the ICE and SCTP transports exist.  If it is a
    control message whose payload starts with the byte 0x03 (whatever
    follows) and its stream id has the remote parity, a channel for that
    stream is constructed on the SCTP transport, registered under the stream
    id and handed the message.  Otherwise, a control message having a
    payload, the SCTP transport is told to reset the stream, the message is
    dropped and the registry stays as it was. *)
Theorem forwardMessage_unknown_stream (pc : PeerConnection)
    (ice : IceTransport.t) (sctp : SctpTransport) (m : Message.t) :
  mIceTransport pc = Some ice ->
  mSctpTransport pc = Some sctp ->
  mDataChannels pc !! Message.stream m = None ->
  (open_message ice m -> accepted pc m (forwardMessage m pc)) /\
  (~ open_message ice m ->
   (Message.type m = Control -> Message.data m <> []) ->
   rejected pc m (forwardMessage m pc)).
Proof.
  intros Hice Hsctp Hnew.
  unfold accepted, rejected, open_message, remote_parity, forwardMessage.
  run_monad. rewrite Hice, Hsctp, Hnew. unfold map_insert_new. rewrite Hnew.
  split.
  - intros (Ht & [rest Hd] & Hp).
    rewrite Ht, Hd. rewrite decide_True by reflexivity.
    apply Z.eqb_eq in Hp. rewrite Hp. reflexivity.
  - intros Hno Hdata.
    destruct (decide (Message.type m = Control)) as [Ht|Ht]; [|reflexivity].
    specialize (Hdata Ht).
    destruct (Message.data m) as [|b rest] eqn:Hd; [congruence|].
    destruct (Byte.eqb b x03) eqn:Hb; [|reflexivity].
    apply byte_dec_bl in Hb. subst b.
    destruct (Message.stream m mod 2 =? _) eqn:Hp; [|reflexivity].
    apply Z.eqb_eq in Hp. exfalso. apply Hno. eauto.
Qed.

End PeerConnectionFacts.

(** C1, an instance: the active side, no channel yet, an open request on
    stream 1 and a data message on stream 2. *)
Lemma forwardMessage_unknown_stream_example :
  accepted (connected Active ∅) (open_request 1)
    (forwardMessage (open_request 1) (connected Active ∅)) /\
  rejected (connected Active ∅)
    {| Message.data := [x03]; Message.type := Control; Message.stream := 2 |}
    (forwardMessage
       {| Message.data := [x03]; Message.type := Control;
          Message.stream := 2 |}
       (connected Active ∅)).
Proof.
  split.
  - apply (forwardMessage_unknown_stream (connected Active ∅)
             (session Active)
             {| sctp_lower := Some {| dtls_lower := Some (session Active) |};
                sctp_port := 5000 |}
             (open_request 1)); try reflexivity.
    unfold open_message. repeat split. eexists. reflexivity.
  - apply (forwardMessage_unknown_stream (connected Active ∅)
             (session Active)
             {| sctp_lower := Some {| dtls_lower := Some (session Active) |};
                sctp_port := 5000 |}); try reflexivity.
    + intros (_ & _ & Hp). vm_compute in Hp. discriminate.
    + intros _. discriminate.
Defined.

(** C1 fails as stated: an open request as a peer sends it has more than
    one byte of payload, and the code accepts it where the specification
    has the stream reset. *)
Lemma forwardMessage_accepts_longer_payload :
  mIceTransport (connected Active ∅) = Some (session Active) /\
  is_Some (mSctpTransport (connected Active ∅)) /\
  mDataChannels (connected Active ∅) !! Message.stream (open_request 1) = None
  /\ ~ forwardMessage_single_byte (connected Active ∅) (session Active)
        (open_request 1).
Proof.
  repeat split; [eexists; reflexivity|].
  intros [_ H].
  assert (Hno : ~ open_message_single_byte (session Active) (open_request 1)).
  { intros (_ & Hd & _). discriminate Hd. }
  specialize (H Hno). unfold rejected in H.
  vm_compute in H. discriminate H.
Qed.

(** ** Allocation of stream ids *)

(** Linear arithmetic with [mod] by a constant. *)
Ltac zmod := Z.div_mod_to_equations; lia.

(** The loop, started below 65535 with enough fuel, stops: at the lowest
    free id of the parity it started with, or by throwing when there is
    none below 65535. *)
Lemma find_stream_fuel (m : gmap Z DataChannel) (fuel : nat) (s : Z) :
  0 <= s < 65535 ->
  65535 - s < 2 * Z.of_nat fuel ->
  match find_stream fuel m s with
  | Some (inr k) =>
      s <= k < 65535 /\ k mod 2 = s mod 2 /\ m !! k = None /\
      forall j, s <= j < k -> j mod 2 = s mod 2 -> is_Some (m !! j)
  | Some (inl e) =>
      e = too_many /\
      forall j, s <= j < 65535 -> j mod 2 = s mod 2 -> is_Some (m !! j)
  | None => False
  end.
Proof.
  revert s. induction fuel as [|fuel IH]; intros s Hs Hfuel; [lia|].
  cbn [find_stream]. destruct (m !! s) as [c|] eqn:Hms.
  - assert (Hw : wrap32 (s + 2) = s + 2) by (unfold wrap32; zmod).
    rewrite Hw. destruct (65535 <=? s + 2) eqn:Hle.
    + apply Z.leb_le in Hle. split; [reflexivity|].
      intros j Hj Hp. assert (j = s) as -> by zmod. eauto.
    + apply Z.leb_gt in Hle.
      specialize (IH (s + 2) ltac:(lia) ltac:(lia)).
      destruct (find_stream fuel m (s + 2)) as [[e|k]|]; [| |exact IH].
      * destruct IH as [-> IH]. split; [reflexivity|].
        intros j Hj Hp. destruct (decide (j = s)) as [->|Hne]; [eauto|].
        apply IH; zmod.
      * destruct IH as (Hk & Hkp & Hkm & IH).
        repeat split; [lia|lia|zmod|exact Hkm|].
        intros j Hj Hp. destruct (decide (j = s)) as [->|Hne]; [eauto|].
        apply IH; zmod.
  - repeat split; [lia|lia|exact Hms|]. intros j Hj. lia.
Qed.

Lemma stream_fuel_enough (s : Z) :
  0 <= s -> 65535 - s < 2 * Z.of_nat stream_fuel.
Proof. unfold stream_fuel. rewrite Z2Nat.id; lia. Qed.

Lemma local_parity_start (pc : PeerConnection) :
  (if decide (match mIceTransport pc with
              | Some ice => IceTransport.role ice
              | None => Active
              end = Active) then 0 else 1) = local_parity pc.
Proof.
  unfold local_parity. destruct (mIceTransport pc); [reflexivity|].
  now rewrite decide_True.
Qed.

Lemma local_parity_range (pc : PeerConnection) :
  local_parity pc = 0 \/ local_parity pc = 1.
Proof.
  unfold local_parity. destruct (mIceTransport pc); [|tauto].
  destruct (decide _); tauto.
Qed.

(** The search of [createDataChannel], from the state it is called in. *)
Lemma find_stream_local (pc : PeerConnection) :
  let p := local_parity pc in
  let m := mDataChannels pc in
  (find_stream stream_fuel m p = Some (inl too_many) /\ exhausted p m) \/
  (exists k, find_stream stream_fuel m p = Some (inr k) /\
             lowest_free p m k /\ k < 65535).
Proof.
  intros p m.
  assert (Hp : p = 0 \/ p = 1) by apply local_parity_range.
  pose proof (find_stream_fuel m stream_fuel p ltac:(lia)
                (stream_fuel_enough p ltac:(lia))) as H.
  assert (Hpp : p mod 2 = p) by (destruct Hp as [-> | ->]; reflexivity).
  destruct (find_stream stream_fuel m p) as [[e|k]|]; [| |contradiction].
  - destruct H as [-> H]. left. split; [reflexivity|].
    intros j Hj Hjp. apply H; [|congruence].
    destruct Hp as [-> | ->]; zmod.
  - destruct H as (Hk & Hkp & Hkm & H). right. exists k.
    split; [reflexivity|]. split; [|lia].
    repeat split; [lia|congruence|exact Hkm|].
    intros j Hj Hjp. apply H; [|congruence].
    destruct Hp as [-> | ->]; zmod.
Qed.

Section Allocation.
Context `{X : Externals}.

Lemma createDataChannel_registers (E : Env) (label protocol : string)
    (reliability : Reliability) (pc : PeerConnection) (k : Z) :
  find_stream stream_fuel (mDataChannels pc) (local_parity pc)
    = Some (inr k) ->
  mDataChannels pc !! k = None ->
  let ch := DataChannel_local k label protocol reliability in
  let o := createDataChannel E label protocol reliability pc in
  (exists pc', final_state o = Some pc' /\
               mDataChannels pc' = <[k := ch]> (mDataChannels pc)) /\
  (returned o = Some ch \/ (mIceTransport pc = None /\ is_Some (thrown o))).
Proof.
  intros Hfind Hk ch o. subst o. unfold createDataChannel. run_monad.
  rewrite local_parity_start, Hfind. unfold map_insert_new. rewrite Hk.
  fold ch. cbn [mIceTransport mSctpTransport set_mDataChannels].
  destruct (mIceTransport pc) as [ice|] eqn:Hice.
  - destruct (mSctpTransport pc) as [sctp|];
      [destruct (SctpTransport_isReady E)|];
      (split; [eexists; split; reflexivity | left; reflexivity]).
  - unfold initIceTransport.
    destruct (IceTransport.new E Active) as [e|ice]; run_monad.
    + split; [eexists; split; reflexivity | right; split; eauto].
    + unfold triggerLocalDescription, ice_gatherLocalCandidates. run_monad.
      cbn [mIceTransport mLocalDescriptionCallback set_mIceTransport
           set_mDataChannels IceTransport.gatherLocalCandidates perform_all
           perform].
      run_monad.
      destruct (mLocalDescriptionCallback pc);
        destruct (nice_agent_gather_candidates E); run_monad.
      all: (split; [eexists; split; reflexivity | ]).
      all: try (left; reflexivity).
      all: right; split; eauto.
Qed.

Lemma createDataChannel_call (E : Env) (label protocol : string)
    (reliability : Reliability) (pc : PeerConnection) :
  allocates_lowest_free
    (pc, createDataChannel E label protocol reliability pc).
Proof.
  unfold allocates_lowest_free. cbn [fst snd].
  destruct (find_stream_local pc) as [[Hfind Hex] | (k & Hfind & Hlow & Hk)].
  - left. split; [exact Hex|].
    unfold createDataChannel. run_monad.
    now rewrite local_parity_start, Hfind.
  - right. exists k, (DataChannel_local k label protocol reliability).
    pose proof Hlow as (_ & _ & Hfree & _).
    destruct (createDataChannel_registers E label protocol reliability pc k
                Hfind Hfree) as [(pc' & Hfin & Hreg) Hret].
    repeat split; try assumption; try apply Hlow.
    rewrite Hfin. cbn. now rewrite Hreg.
Qed.

(** C3: when every id of the local parity below 65535 is in the registry,
    [createDataChannel] throws, and the object -- its registry with it -- is
    as before the call; nothing was called. *)
Theorem createDataChannel_exhausted (E : Env) (label protocol : string)
    (reliability : Reliability) (pc : PeerConnection) :
  exhausted (local_parity pc) (mDataChannels pc) ->
  createDataChannel E label protocol reliability pc = Throw too_many pc [].
Proof.
  intros Hex.
  pose proof (createDataChannel_call E label protocol reliability pc) as H.
  unfold allocates_lowest_free in H. cbn [fst snd] in H.
  destruct H as [[_ H] | (k & ch & Hlow & Hk & _)]; [exact H|].
  destruct Hlow as (Hk0 & Hkp & Hfree & _).
  destruct (Hex k ltac:(lia) Hkp) as [c Hc].
  rewrite Hfree in Hc. discriminate Hc.
Qed.

Lemma createDataChannels_spec
    (l : list (Env * (string * string * Reliability))) (pc : PeerConnection) :
  let calls := createDataChannels l pc in
  length calls = length l /\
  Forall allocates_lowest_free calls /\
  NoDup (returned_streams calls) /\
  forall k, k ∈ returned_streams calls -> mDataChannels pc !! k = None.
Proof.
  revert pc. induction l as [|[E [[label protocol] reliability]] l IH];
    intros pc; cbn [createDataChannels length].
  { repeat split; [constructor|constructor|]. intros k Hk. inversion Hk. }
  pose proof (createDataChannel_call E label protocol reliability pc) as Hc.
  unfold allocates_lowest_free in Hc. cbn [fst snd] in Hc.
  set (o := createDataChannel E label protocol reliability pc) in *.
  destruct Hc as [[Hex Ho] | (k & ch & Hlow & Hk & Hch & Hreg & Hret)];
    cbn [fst snd] in *.
  - clearbody o. subst o. cbn [final_state].
    destruct (IH pc) as (Hlen & Hall & Hnd & Hfresh).
    unfold returned_streams in *.
    cbn [omap list_omap snd returned fmap option_fmap option_map].
    repeat split; [now f_equal| |exact Hnd|exact Hfresh].
    constructor; [|exact Hall]. left. now split.
  - destruct (final_state o) as [pc'|] eqn:Hfin; [|discriminate Hreg].
    cbn in Hreg. injection Hreg as Hreg.
    destruct (IH pc') as (Hlen & Hall & Hnd & Hfresh).
    assert (Hrest : forall j, j ∈ returned_streams (createDataChannels l pc')
                      -> j <> k /\ mDataChannels pc !! j = None).
    { intros j Hj. specialize (Hfresh j Hj). rewrite Hreg in Hfresh.
      destruct (decide (j = k)) as [->|Hne].
      - now rewrite lookup_insert_eq in Hfresh.
      - now rewrite lookup_insert_ne in Hfresh by congruence. }
    split; [now f_equal|]. split.
    { constructor; [|exact Hall]. right. exists k, ch. cbn [fst snd].
      fold o. rewrite Hfin. cbn. rewrite Hreg. tauto. }
    unfold returned_streams in *. cbn [omap list_omap snd]. fold o.
    destruct (returned o) as [ch'|] eqn:Hr; cbn [fmap option_fmap option_map].
    + assert (ch' = ch) as ->.
      { destruct Hret as [Hret|[_ [e He]]]; [congruence|].
        destruct o; discriminate. }
      rewrite Hch. split.
      * constructor; [|exact Hnd]. intros Hin. now destruct (Hrest k Hin).
      * intros j Hj. apply elem_of_cons in Hj as [->|Hj];
          [apply Hlow | now apply Hrest].
    + split; [exact Hnd|]. intros j Hj. now apply Hrest.
Qed.

(** C2: in every sequence of [createDataChannel] calls, from any state and
    whatever the libraries answer, every call ends, and a call either finds
    every id of the local parity below 65535 taken and throws, or registers
    its channel under the lowest id of that parity (0, 2, ... for the active
    side, 1, 3, ... otherwise) that is not a key of the registry, and
    returns that channel unless starting the ICE transport failed.  The ids
    of the channels returned are pairwise distinct. *)
Theorem createDataChannel_lowest_free
    (l : list (Env * (string * string * Reliability))) (pc : PeerConnection) :
  let calls := createDataChannels l pc in
  length calls = length l /\
  Forall allocates_lowest_free calls /\
  NoDup (returned_streams calls).
Proof.
  intros calls.
  destruct (createDataChannels_spec l pc) as (H1 & H2 & H3 & _). auto.
Qed.

End Allocation.

(** The registry built for the example does hold every id of its parity. *)
Lemma full_registry_exhausted (p : Z) :
  p = 0 \/ p = 1 -> exhausted p (full_registry p).
Proof.
  intros Hp j Hj Hjp. unfold full_registry.
  apply not_eq_None_Some. intros Hnone.
  apply not_elem_of_list_to_map in Hnone. apply Hnone.
  rewrite <- list_fmap_compose. apply list_elem_of_fmap.
  exists (j / 2). split.
  - cbn. destruct Hp as [-> | ->]; zmod.
  - apply elem_of_seqZ. destruct Hp as [-> | ->]; zmod.
Qed.

(** C3, an instance: the side that answered, with all of 1, 3, ..., 65533
    taken. *)
Lemma createDataChannel_exhausted_example :
  exhausted (local_parity (connected ActPass (full_registry 1)))
    (mDataChannels (connected ActPass (full_registry 1))) /\
  createDataChannel (X := plain) (libs true) "chat" ""
    {| unordered := false; rexmit := 0 |}
    (connected ActPass (full_registry 1))
  = Throw too_many (connected ActPass (full_registry 1)) [].
Proof.
  assert (H : exhausted (local_parity (connected ActPass (full_registry 1)))
                (mDataChannels (connected ActPass (full_registry 1))))
    by (apply (full_registry_exhausted 1); now right).
  split; [exact H|].
  exact (createDataChannel_exhausted (X := plain) (libs true) "chat" ""
           {| unordered := false; rexmit := 0 |}
           (connected ActPass (full_registry 1)) H).
Defined.

(** C2, an instance: three calls on a new connection get 0, 2 and 4, and the
    first one starts the ICE transport on the active side. *)
Example createDataChannel_three :
  returned_streams
    (createDataChannels (X := plain)
       [(libs true, ("a", "", {| unordered := false; rexmit := 0 |}));
        (libs true, ("b", "", {| unordered := false; rexmit := 0 |}));
        (libs true, ("c", "", {| unordered := true; rexmit := 3 |}))]
       (PeerConnection_new "local"))
  = [0; 2; 4].
Proof. vm_compute. reflexivity. Qed.

(** On the side that answered, with 1 and 5 taken: 3, then 7. *)
Example createDataChannel_fills_gap :
  returned_streams
    (createDataChannels (X := plain)
       [(libs true, ("a", "", {| unordered := false; rexmit := 0 |}));
        (libs true, ("b", "", {| unordered := false; rexmit := 0 |}))]
       (connected ActPass
          (<[1 := taken 1]> (<[5 := taken 5]> ∅))))
  = [3; 7].
Proof. vm_compute. reflexivity. Qed.

(** ** Invariants of the lifetime *)

(** Running a call on a state given field by field, and splitting on
    whatever the result still depends on. *)
Ltac unfold_call :=
  cbv [step setRemoteDescription setRemoteCandidate createDataChannel
       onDataChannel onLocalDescription onLocalCandidate forwardMessage
       openDataChannels initIceTransport initDtlsTransport initSctpTransport
       triggerLocalDescription triggerLocalCandidate triggerDataChannel
       ice_setRemoteDescription ice_gatherLocalCandidates perform perform_all
       IceTransport.signal IceTransport.setRemoteDescription
       IceTransport.gatherLocalCandidates IceTransport.addRemoteCandidate
       IceTransport.processCandidate IceTransport.processGatheringDone
       IceTransport.changeState IceTransport.incoming IceTransport.new
       IceTransport.role IceTransport.getStreamName
       bind ret get modify emit throw undefined ends_with
       set_mSctpPort set_mRemoteFingerprint set_mIceTransport
       set_mDtlsTransport set_mSctpTransport set_mDataChannels set_callbacks
       mCertificate mMid mSctpPort mRemoteFingerprint mIceTransport
       mDtlsTransport mSctpTransport mDataChannels mDataChannelCallback
       mLocalDescriptionCallback mLocalCandidateCallback
       IceTransport.mRole IceTransport.mState IceTransport.mStreamId
       app fst snd].

Ltac split_call :=
  repeat (match goal with
          | |- context [match ?x with _ => _ end] =>
              lazymatch x with
              | context [match _ with _ => _ end] => fail
              | _ => destruct x eqn:?
              end
          end; unfold_call).

Section LifetimeFacts.
Context `{X : Externals}.

Lemma ice_created_app (l1 l2 : list Event) :
  ice_created (l1 ++ l2) = (ice_created l1 + ice_created l2)%nat.
Proof. unfold ice_created. now rewrite List.filter_app, length_app. Qed.

Lemma ice_created_opens (l : list (Z * DataChannel)) :
  ice_created (map (fun kv => ChannelOpen (fst kv)) l) = 0%nat.
Proof. induction l as [|kv l IH]; [reflexivity|exact IH]. Qed.

(** A call constructs an ICE transport only when the connection has none,
    and then holds the one it constructed. *)
Lemma step_ice_instances (E : Env) (c : Call) (pc : PeerConnection) :
  ends_with (step E c pc)
    (fun pc' evs =>
       (ice_instances pc + ice_created evs)%nat = ice_instances pc').
Proof.
  destruct pc as [cert mid port fp ice dtls sctp chans cb1 cb2 cb3].
  destruct c; unfold_call; split_call; try exact I; try reflexivity.
  all: rewrite ?ice_created_opens;
    cbv [ice_instances ice_created mIceTransport List.filter
         is_NewIceTransport length]; lia.
Qed.


Lemma run_ice_instances (l : list (Env * Call)) (pc pc' : PeerConnection)
    (log log' : list Event) :
  run l pc log = Some (pc', log') ->
  ice_instances pc = ice_created log ->
  ice_instances pc' = ice_created log'.
Proof.
  revert pc log. induction l as [|[E c] l IH]; intros pc log; cbn [run].
  - intros [= <- <-]. auto.
  - pose proof (step_ice_instances E c pc) as Hs.
    destruct (step E c pc) as [a pc1 evs|e pc1 evs|];
      cbn [final_state events ends_with] in *; [| |discriminate].
    all: intros Hrun Hinv; apply (IH _ _ Hrun);
      rewrite ice_created_app; lia.
Qed.

(** With an ICE transport, [setRemoteDescription] hands the description to
    it and does nothing else that can be seen from outside the object. *)
Lemma setRemoteDescription_update (E : Env) (description : string)
    (pc : PeerConnection) (ice : IceTransport.t) :
  mIceTransport pc = Some ice ->
  let o := setRemoteDescription E description pc in
  events o =
    [Ice (IceTransport.parse_remote_sdp
            (Description_string (Description_parse ActPass description)))] /\
  mIceTransport <$> final_state o = Some (Some ice).
Proof.
  destruct pc as [cert mid port fp ice0 dtls sctp chans cb1 cb2 cb3].
  cbn [mIceTransport]. intros ->. unfold_call.
  destruct (d_fingerprint _), (d_sctpPort _); unfold_call;
    destruct (nice_agent_parse_remote_sdp E _ =? 0); split; reflexivity.
Qed.

(** C4: in every lifetime of a connection -- any sequence of calls of the
    application, signals of the agent and calls of the upper transports,
    whatever the libraries answer -- at most one ICE transport is ever
    constructed; and once the connection holds one, [setRemoteDescription]
    only hands the description to it: it constructs nothing, does not call
    the local-description callback, and the connection holds the same ICE
    transport afterwards. *)
Theorem one_ice_transport (certificate : string) (l : list (Env * Call))
    (pc : PeerConnection) (log : list Event) :
  run l (PeerConnection_new certificate) [] = Some (pc, log) ->
  (ice_created log <= 1)%nat /\
  forall ice, mIceTransport pc = Some ice ->
  forall E description,
    let o := setRemoteDescription E description pc in
    events o =
      [Ice (IceTransport.parse_remote_sdp
              (Description_string (Description_parse ActPass description)))]
    /\ List.filter is_NewIceTransport (events o) = []
    /\ List.filter is_LocalDescriptionCallback (events o) = []
    /\ mIceTransport <$> final_state o = Some (Some ice).
Proof.
  intros Hrun. split.
  - rewrite <- (run_ice_instances _ _ _ _ _ Hrun eq_refl).
    unfold ice_instances. destruct (mIceTransport pc); lia.
  - intros ice Hice E description o.
    destruct (setRemoteDescription_update E description pc ice Hice)
      as [Hev Hst].
    subst o. rewrite Hev. repeat split. exact Hst.
Qed.

(** A call leaves the fingerprint on record as it is, except
    [setRemoteDescription] given a description that carries one. *)
Lemma step_fingerprint (E : Env) (c : Call) (pc : PeerConnection) :
  ends_with (step E c pc)
    (fun pc' _ =>
       mRemoteFingerprint pc' =
       record_fingerprint (mRemoteFingerprint pc) (E, c)).
Proof.
  destruct pc as [cert mid port fp ice dtls sctp chans cb1 cb2 cb3].
  destruct c; cbv [record_fingerprint snd]; unfold_call; split_call;
    try exact I; reflexivity.
Qed.

Lemma run_fingerprint (l : list (Env * Call)) (pc pc' : PeerConnection)
    (log log' : list Event) :
  run l pc log = Some (pc', log') ->
  mRemoteFingerprint pc' =
  fold_left record_fingerprint l (mRemoteFingerprint pc).
Proof.
  revert pc log. induction l as [|[E c] l IH]; intros pc log; cbn [run].
  - now intros [= <- <-].
  - pose proof (step_fingerprint E c pc) as Hs.
    destruct (step E c pc) as [a pc1 evs|e pc1 evs|];
      cbn [final_state events ends_with fold_left] in *; [| |discriminate].
    all: intros Hrun; rewrite (IH _ _ Hrun); now rewrite Hs.
Qed.

(** C5: after any lifetime, [checkFingerprint] answers true exactly when a
    [setRemoteDescription] call recorded a fingerprint and the one on
    record equals the one presented; with none recorded it answers false. *)
Theorem checkFingerprint_recorded (certificate : string)
    (l : list (Env * Call)) (pc : PeerConnection) (log : list Event)
    (fingerprint : string) :
  run l (PeerConnection_new certificate) [] = Some (pc, log) ->
  (checkFingerprint pc fingerprint = true <->
   recorded_fingerprint l = Some fingerprint) /\
  (recorded_fingerprint l = None -> checkFingerprint pc fingerprint = false).
Proof.
  intros Hrun. apply run_fingerprint in Hrun. cbn [mRemoteFingerprint
    PeerConnection_new] in Hrun. fold (recorded_fingerprint l) in Hrun.
  unfold checkFingerprint. rewrite Hrun.
  destruct (recorded_fingerprint l) as [remote|].
  - split; [|discriminate]. rewrite String.eqb_eq.
    split; [now intros -> | now intros [= ->]].
  - split; [|reflexivity]. split; discriminate.
Qed.

End LifetimeFacts.

(** ** Instances *)

Lemma two_descriptions_run :
  run (X := plain) two_descriptions (PeerConnection_new "local") []
  = Some (answering, answering_log).
Proof. vm_compute. reflexivity. Qed.

(** C4, an instance: an offer and an update.  One ICE transport is
    constructed and the local description is emitted once, both by the
    first call. *)
Lemma one_ice_transport_example :
  run (X := plain) two_descriptions (PeerConnection_new "local") []
  = Some (answering, answering_log) /\
  (ice_created answering_log <= 1)%nat /\
  events (setRemoteDescription (X := plain) (libs true) "again" answering)
  = [Ice (IceTransport.parse_remote_sdp "again")].
Proof.
  split; [exact two_descriptions_run|].
  destruct (one_ice_transport (X := plain) "local" two_descriptions
              answering answering_log two_descriptions_run) as [Hone Hupd].
  split; [exact Hone|].
  exact (proj1 (Hupd _ eq_refl (libs true) "again")).
Defined.

(** C5, an instance: after the two descriptions the fingerprint on record
    is that of the second one. *)
Lemma checkFingerprint_recorded_example :
  run (X := plain) two_descriptions (PeerConnection_new "local") []
  = Some (answering, answering_log) /\
  checkFingerprint answering "update" = true.
Proof.
  split; [exact two_descriptions_run|].
  apply (checkFingerprint_recorded (X := plain) "local" two_descriptions
           answering answering_log "update" two_descriptions_run).
  reflexivity.
Defined.

(** With no description ever set, every fingerprint is refused. *)
Example checkFingerprint_none :
  checkFingerprint (PeerConnection_new "local") "AA:BB" = false.
Proof. reflexivity. Qed.

(** C7, an instance: a candidate given to a new connection. *)
Lemma setRemoteCandidate_before_ice_example :
  mIceTransport (PeerConnection_new "local") = None /\
  setRemoteCandidate (X := plain) (libs true)
    "candidate:1 1 UDP 1 ::1 9 typ host" (PeerConnection_new "local")
  = Ret tt (PeerConnection_new "local") [].
Proof.
  split; [reflexivity|].
  apply (setRemoteCandidate_before_ice (X := plain)). reflexivity.
Defined.

(** C10, an instance: a candidate the agent cannot parse.  The session
    answers false, the call returns as for any other candidate. *)
Lemma setRemoteCandidate_drops_result_example :
  snd (IceTransport.addRemoteCandidate (X := plain) (libs false)
         (session Active) (Build_Candidate "garbage" "0")) = false /\
  setRemoteCandidate (X := plain) (libs false) "garbage" (connected Active ∅)
  = Ret tt (connected Active ∅)
      [Ice (IceTransport.parse_remote_candidate_sdp 1 "garbage")].
Proof.
  split; [reflexivity|].
  exact (proj1 (setRemoteCandidate_drops_result (X := plain) (libs false)
                  "garbage" (connected Active ∅) (session Active) eq_refl)).
Defined.

(** C8, an instance: gathering done on a connection whose application
    listens for candidates. *)
Lemma end_of_candidates_forwarded_example :
  mLocalCandidateCallback (connected Active ∅) = true /\
  step (X := plain) (libs true) (IceSignal IceTransport.GatheringDone)
    (connected Active ∅)
  = Ret tt (connected Active ∅) [LocalCandidateCallback None].
Proof.
  split; [reflexivity|].
  apply (end_of_candidates_forwarded (X := plain) (libs true)
           (connected Active ∅) (session Active)); reflexivity.
Defined.

(** C6, instances: one change into READY, and READY entered twice. *)
Example ready_callback_once :
  snd (IceTransport.signals (X := plain) (libs true) (session ActPass)
         (IceTransport.StateChanged <$> [1; 2; 3; 4]))
  = [IceTransport.readyCallback].
Proof. reflexivity. Qed.

Example ready_callback_again :
  snd (IceTransport.signals (X := plain) (libs true) (session ActPass)
         (IceTransport.StateChanged <$> [3; 4; 3; 4]))
  = [IceTransport.readyCallback; IceTransport.readyCallback].
Proof. reflexivity. Qed.

(** * Further properties *)

(** ** The registry over a lifetime *)

Lemma map_insert_new_lookup (k j : Z) (v ch : DataChannel)
    (m : gmap Z DataChannel) :
  map_insert_new k v m !! j = Some ch ->
  m !! j = Some ch \/ (j = k /\ ch = v /\ m !! k = None).
Proof.
  unfold map_insert_new. destruct (m !! k) as [c|] eqn:Hk; [tauto|].
  destruct (decide (k = j)) as [->|Hne].
  - rewrite lookup_insert_eq. intros [= <-]. tauto.
  - rewrite lookup_insert_ne by exact Hne. tauto.
Qed.

Lemma map_insert_new_subseteq (k : Z) (v : DataChannel)
    (m : gmap Z DataChannel) :
  m ⊆ map_insert_new k v m.
Proof.
  unfold map_insert_new. destruct (m !! k) eqn:Hk; [reflexivity|].
  now apply insert_subseteq.
Qed.

Section RegistryFacts.
Context `{X : Externals}.

(** What a call leaves of the registry and of the ICE transport. *)
Lemma step_registry (E : Env) (c : Call) (pc : PeerConnection) :
  ends_with (step E c pc)
    (fun pc' _ =>
       mDataChannels pc ⊆ mDataChannels pc' /\ same_session pc pc').
Proof.
  destruct pc as [cert mid port fp ice dtls sctp chans cb1 cb2 cb3].
  destruct c; cbv [same_session]; unfold_call; split_call;
    try exact I; (split; [try reflexivity; try apply map_insert_new_subseteq|]).
  all: intros i Hi; try discriminate Hi; try (injection Hi as <-);
    try subst; eexists; repeat split; reflexivity.
Qed.


Lemma registry_ok_session (ice ice' : IceTransport.t)
    (m : gmap Z DataChannel) :
  IceTransport.mRole ice' = IceTransport.mRole ice ->
  registry_ok (Some ice) m -> registry_ok (Some ice') m.
Proof.
  intros Hr H k ch Hk. destruct (H k ch Hk) as (H1 & H2 & H3).
  repeat split; [exact H1|apply H2; assumption|apply H2; assumption|].
  intros Ht. destruct (H3 Ht) as (i & [= <-] & Hp).
  exists ice'. split; [reflexivity|].
  unfold remote_parity, IceTransport.role in *. now rewrite Hr.
Qed.

Lemma registry_ok_started (ice : IceTransport.t) (m : gmap Z DataChannel) :
  registry_ok None m -> registry_ok (Some ice) m.
Proof.
  intros H k ch Hk. destruct (H k ch Hk) as (H1 & H2 & H3).
  repeat split; [exact H1|apply H2; assumption|apply H2; assumption|].
  intros Ht. destruct (H3 Ht) as (i & [=] & _).
Qed.

Lemma registry_ok_local (o : option IceTransport.t) (m : gmap Z DataChannel)
    (k : Z) (label protocol : string) (reliability : Reliability) :
  0 <= k < 65535 ->
  registry_ok o m ->
  registry_ok o
    (map_insert_new k (DataChannel_local k label protocol reliability) m).
Proof.
  intros Hk H j ch Hj.
  apply map_insert_new_lookup in Hj as [Hj | (-> & -> & _)]; [now apply H|].
  cbn; repeat split; intros; solve [reflexivity | lia | discriminate].
Qed.

Lemma registry_ok_remote (ice : IceTransport.t) (m : gmap Z DataChannel)
    (k : Z) :
  k mod 2 = remote_parity ice ->
  registry_ok (Some ice) m ->
  registry_ok (Some ice) (map_insert_new k (DataChannel_remote k) m).
Proof.
  intros Hk H j ch Hj.
  apply map_insert_new_lookup in Hj as [Hj | (-> & -> & _)]; [now apply H|].
  cbn; repeat split; intros; solve [reflexivity | discriminate | eauto].
Qed.

(** Where the search of [createDataChannel] ends when it finds an id. *)
Lemma find_stream_found (m : gmap Z DataChannel) (s k : Z) :
  s = 0 \/ s = 1 ->
  find_stream stream_fuel m s = Some (inr k) ->
  0 <= k < 65535 /\ k mod 2 = s /\ m !! k = None.
Proof.
  intros Hs Hf.
  pose proof (find_stream_fuel m stream_fuel s ltac:(lia)
                (stream_fuel_enough s ltac:(lia))) as H.
  rewrite Hf in H. destruct H as (H1 & H2 & H3 & _).
  repeat split; [lia|lia| |exact H3].
  rewrite H2. destruct Hs as [-> | ->]; reflexivity.
Qed.

Lemma step_registry_wf (E : Env) (c : Call) (pc : PeerConnection) :
  registry_wf pc ->
  ends_with (step E c pc) (fun pc' _ => registry_wf pc').
Proof.
  destruct pc as [cert mid port fp ice dtls sctp chans cb1 cb2 cb3].
  unfold registry_wf. cbn [mIceTransport mDataChannels]. intros Hwf.
  destruct c; unfold_call; split_call; try exact I; try exact Hwf;
    subst.
  all: try (apply registry_ok_started; exact Hwf).
  all: try (eapply registry_ok_session; [|exact Hwf]; reflexivity).
  all: try (apply registry_ok_local;
            [eapply (find_stream_found chans _ z); [|eassumption]; tauto
            |exact Hwf]).
  all: try (apply registry_ok_started; apply registry_ok_local;
            [eapply (find_stream_found chans _ z); [|eassumption]; tauto
            |exact Hwf]).
  all: apply registry_ok_remote; [|exact Hwf];
    match goal with
    | H : _ && _ = true |- _ =>
        apply andb_prop in H as [_ Hp]; apply Z.eqb_eq in Hp; rewrite Hp
    end;
    unfold remote_parity; cbn [IceTransport.role IceTransport.mRole];
    match goal with
    | H : decide (_ = Active) = _ |- _ => now rewrite H
    end.
Qed.

Lemma run_registry (l : list (Env * Call)) (pc pc' : PeerConnection)
    (log log' : list Event) :
  run l pc log = Some (pc', log') ->
  mDataChannels pc ⊆ mDataChannels pc' /\ same_session pc pc'.
Proof.
  revert pc log. induction l as [|[E c] l IH]; intros pc log; cbn [run].
  - intros [= <- <-]. split; [reflexivity|]. intros ice Hice. eauto.
  - pose proof (step_registry E c pc) as Hs.
    destruct (step E c pc) as [a pc1 evs|e pc1 evs|];
      cbn [final_state events ends_with] in *; [| |discriminate].
    all: intros Hrun; destruct (IH _ _ Hrun) as [Hsub Hsame];
      destruct Hs as [Hsub1 Hsame1]; split;
      [etransitivity; eassumption|].
    all: intros ice Hice; destruct (Hsame1 ice Hice) as (i1 & Hi1 & Hr1 & Hs1);
      destruct (Hsame i1 Hi1) as (i2 & Hi2 & Hr2 & Hs2);
      exists i2; repeat split; congruence.
Qed.

Lemma run_registry_wf (l : list (Env * Call)) (pc pc' : PeerConnection)
    (log log' : list Event) :
  run l pc log = Some (pc', log') -> registry_wf pc -> registry_wf pc'.
Proof.
  revert pc log. induction l as [|[E c] l IH]; intros pc log; cbn [run].
  - now intros [= <- <-].
  - intros Hrun Hwf. pose proof (step_registry_wf E c pc Hwf) as Hs.
    destruct (step E c pc) as [a pc1 evs|e pc1 evs|];
      cbn [final_state events ends_with] in *; [| |discriminate].
    all: exact (IH _ _ Hrun Hs).
Qed.

(** A channel, once registered, stays: over any sequence of calls, from any
    state, no entry of the registry is removed or replaced. *)
Theorem registered_channels_stay (l : list (Env * Call))
    (pc pc' : PeerConnection) (log log' : list Event) (k : Z)
    (ch : DataChannel) :
  run l pc log = Some (pc', log') ->
  mDataChannels pc !! k = Some ch ->
  mDataChannels pc' !! k = Some ch.
Proof.
  intros Hrun Hk. destruct (run_registry _ _ _ _ _ Hrun) as [Hsub _].
  exact (lookup_weaken _ _ _ _ Hk Hsub).
Qed.

(** The ICE transport, once constructed, stays: over any sequence of calls
    the connection holds a session of the same role and the same stream;
    only its state changes. *)
Theorem ice_transport_stays (l : list (Env * Call))
    (pc pc' : PeerConnection) (log log' : list Event)
    (ice : IceTransport.t) :
  run l pc log = Some (pc', log') ->
  mIceTransport pc = Some ice ->
  exists ice', mIceTransport pc' = Some ice' /\
    IceTransport.role ice' = IceTransport.role ice /\
    IceTransport.mStreamId ice' = IceTransport.mStreamId ice /\
    local_parity pc' = local_parity pc.
Proof.
  intros Hrun Hice. destruct (run_registry _ _ _ _ _ Hrun) as [_ Hsame].
  destruct (Hsame ice Hice) as (ice' & Hice' & Hr & Hs).
  exists ice'. repeat split; try assumption.
  unfold local_parity, IceTransport.role. now rewrite Hice, Hice', Hr.
Qed.

(** In every lifetime of a connection each channel is registered under its
    own stream id, and a channel made by [createDataChannel] has an id in
    [0, 65535). *)
Theorem registry_keys (certificate : string) (l : list (Env * Call))
    (pc : PeerConnection) (log : list Event) (k : Z) (ch : DataChannel) :
  run l (PeerConnection_new certificate) [] = Some (pc, log) ->
  mDataChannels pc !! k = Some ch ->
  dc_stream ch = k /\ (dc_transport ch = false -> 0 <= k < 65535).
Proof.
  intros Hrun Hk.
  assert (Hwf : registry_wf (PeerConnection_new certificate))
    by (intros j c Hj; discriminate Hj).
  destruct (run_registry_wf _ _ _ _ _ Hrun Hwf k ch Hk) as (H1 & H2 & _).
  now split.
Qed.

(** In every lifetime a channel opened by the peer sits on a stream whose
    id has the remote parity (odd on the active side, even otherwise). *)
Theorem remote_channels_parity (certificate : string)
    (l : list (Env * Call)) (pc : PeerConnection) (log : list Event)
    (k : Z) (ch : DataChannel) :
  run l (PeerConnection_new certificate) [] = Some (pc, log) ->
  mDataChannels pc !! k = Some ch ->
  dc_transport ch = true ->
  exists ice, mIceTransport pc = Some ice /\ k mod 2 = remote_parity ice.
Proof.
  intros Hrun Hk Ht.
  assert (Hwf : registry_wf (PeerConnection_new certificate))
    by (intros j c Hj; discriminate Hj).
  destruct (run_registry_wf _ _ _ _ _ Hrun Hwf k ch Hk) as (_ & _ & H3).
  exact (H3 Ht).
Qed.

End RegistryFacts.

(** ** The example lifetime *)

Lemma busy_start_run :
  run (X := plain) busy_start (PeerConnection_new "local") []
  = Some (busy_mid, busy_mid_log).
Proof. vm_compute. reflexivity. Qed.

Lemma busy_rest_run :
  run (X := plain) busy_rest busy_mid busy_mid_log
  = Some (busy_end, busy_log).
Proof. vm_compute. reflexivity. Qed.

Lemma run_app `{X : Externals} (l1 l2 : list (Env * Call))
    (pc pc1 : PeerConnection) (log log1 : list Event) :
  run l1 pc log = Some (pc1, log1) ->
  run (l1 ++ l2) pc log = run l2 pc1 log1.
Proof.
  revert pc log. induction l1 as [|[E c] l1 IH]; intros pc log; cbn [run app].
  - now intros [= <- <-].
  - destruct (final_state (step E c pc)); [apply IH|discriminate].
Qed.

Lemma busy_run :
  run (X := plain) (busy_start ++ busy_rest) (PeerConnection_new "local") []
  = Some (busy_end, busy_log).
Proof. rewrite (run_app _ _ _ _ _ _ busy_start_run). exact busy_rest_run. Qed.

(** The first channel is still registered at the end of the lifetime. *)
Lemma registered_channels_stay_example :
  run (X := plain) busy_rest busy_mid busy_mid_log = Some (busy_end, busy_log)
  /\ mDataChannels busy_mid !! 0 = Some (DataChannel_local 0 "chat" "" reliable)
  /\ mDataChannels busy_end !! 0
     = Some (DataChannel_local 0 "chat" "" reliable).
Proof.
  split; [exact busy_rest_run|]. split; [reflexivity|].
  apply (registered_channels_stay (X := plain) busy_rest busy_mid busy_end
           busy_mid_log busy_log 0 _ busy_rest_run).
  reflexivity.
Defined.

(** The session started by the first channel is the one held at the end. *)
Lemma ice_transport_stays_example :
  run (X := plain) busy_rest busy_mid busy_mid_log = Some (busy_end, busy_log)
  /\ mIceTransport busy_mid
     = Some {| IceTransport.mRole := Active; IceTransport.mState := 0;
               IceTransport.mStreamId := 1 |}
  /\ exists ice', mIceTransport busy_end = Some ice' /\
       IceTransport.role ice' = Active /\
       IceTransport.mStreamId ice' = 1 /\
       local_parity busy_end = local_parity busy_mid.
Proof.
  split; [exact busy_rest_run|]. split; [reflexivity|].
  exact (ice_transport_stays (X := plain) busy_rest busy_mid busy_end
           busy_mid_log busy_log _ busy_rest_run eq_refl).
Defined.

Lemma registry_keys_example :
  run (X := plain) (busy_start ++ busy_rest) (PeerConnection_new "local") []
  = Some (busy_end, busy_log)
  /\ mDataChannels busy_end !! 2
     = Some (DataChannel_local 2 "files" "" reliable)
  /\ dc_stream (DataChannel_local 2 "files" "" reliable) = 2
  /\ (dc_transport (DataChannel_local 2 "files" "" reliable) = false ->
      0 <= 2 < 65535).
Proof.
  split; [exact busy_run|]. split; [reflexivity|].
  exact (registry_keys (X := plain) "local" (busy_start ++ busy_rest)
           busy_end busy_log 2 _ busy_run eq_refl).
Defined.

Lemma remote_channels_parity_example :
  run (X := plain) (busy_start ++ busy_rest) (PeerConnection_new "local") []
  = Some (busy_end, busy_log)
  /\ mDataChannels busy_end !! 1 = Some (DataChannel_remote 1)
  /\ exists ice, mIceTransport busy_end = Some ice /\
                 1 mod 2 = remote_parity ice.
Proof.
  split; [exact busy_run|]. split; [reflexivity|].
  exact (remote_channels_parity (X := plain) "local" (busy_start ++ busy_rest)
           busy_end busy_log 1 _ busy_run eq_refl eq_refl).
Defined.

(** ** The events of a lifetime *)

Section StartupFacts.
Context `{X : Externals}.

Lemma count_app (f : Event -> bool) (l1 l2 : list Event) :
  count f (l1 ++ l2) = (count f l1 + count f l2)%nat.
Proof. unfold count. now rewrite List.filter_app, length_app. Qed.

Lemma count_opens (f : Event -> bool) (l : list (Z * DataChannel)) :
  (forall s, f (ChannelOpen s) = false) ->
  count f (map (fun kv => ChannelOpen (fst kv)) l) = 0%nat.
Proof.
  intros Hf. induction l as [|kv l IH]; [reflexivity|].
  unfold count in *. cbn [map List.filter]. now rewrite Hf.
Qed.

(** The local description is emitted and gathering is started only by a
    call that constructs the ICE transport, once each at most; and a DTLS
    transport is held only when an ICE transport is. *)
Lemma step_startup (E : Env) (c : Call) (pc : PeerConnection) :
  (is_Some (mDtlsTransport pc) -> is_Some (mIceTransport pc)) ->
  ends_with (step E c pc)
    (fun pc' evs =>
       (count is_LocalDescriptionCallback evs <= ice_created evs)%nat /\
       (count is_gather evs <= ice_created evs)%nat /\
       (is_Some (mDtlsTransport pc') -> is_Some (mIceTransport pc'))).
Proof.
  destruct pc as [cert mid port fp ice dtls sctp chans cb1 cb2 cb3].
  cbn [mDtlsTransport mIceTransport]. intros Hinv.
  destruct c;
    try (unfold_call; split_call; try exact I;
         cbv [count ice_created List.filter is_LocalDescriptionCallback
              is_gather is_NewIceTransport length];
         repeat split; eauto; try lia;
         intros [d Hd]; try discriminate Hd;
         apply Hinv; eauto; fail).
  cbn [step]. unfold openDataChannels. run_monad. cbn [ends_with].
  rewrite !count_opens by reflexivity. unfold ice_created.
  repeat split; [lia|lia|exact Hinv].
Qed.

Lemma run_startup (l : list (Env * Call)) (pc pc' : PeerConnection)
    (log log' : list Event) :
  run l pc log = Some (pc', log') ->
  (is_Some (mDtlsTransport pc) -> is_Some (mIceTransport pc)) ->
  (count is_LocalDescriptionCallback log <= ice_created log)%nat ->
  (count is_gather log <= ice_created log)%nat ->
  (count is_LocalDescriptionCallback log' <= ice_created log')%nat /\
  (count is_gather log' <= ice_created log')%nat /\
  (is_Some (mDtlsTransport pc') -> is_Some (mIceTransport pc')).
Proof.
  revert pc log. induction l as [|[E c] l IH]; intros pc log; cbn [run].
  - intros [= <- <-]. auto.
  - intros Hrun Hinv H1 H2. pose proof (step_startup E c pc Hinv) as Hs.
    destruct (step E c pc) as [a pc1 evs|e pc1 evs|];
      cbn [final_state events ends_with] in *; [| |discriminate].
    all: destruct Hs as (Hs1 & Hs2 & Hs3);
      apply (IH _ _ Hrun Hs3); rewrite !count_app, ice_created_app; lia.
Qed.

(** In every lifetime the local description is handed to the application at
    most once and candidate gathering is started at most once: both happen
    only in the call that constructs the ICE transport. *)
Theorem local_description_once (certificate : string)
    (l : list (Env * Call)) (pc : PeerConnection) (log : list Event) :
  run l (PeerConnection_new certificate) [] = Some (pc, log) ->
  (count is_LocalDescriptionCallback log <= 1)%nat /\
  (count is_gather log <= 1)%nat.
Proof.
  intros Hrun.
  assert (Hinv : is_Some (mDtlsTransport (PeerConnection_new certificate)) ->
                 is_Some (mIceTransport (PeerConnection_new certificate)))
    by (intros [d Hd]; discriminate Hd).
  destruct (run_startup _ _ _ _ _ Hrun Hinv) as (H1 & H2 & _);
    [reflexivity|reflexivity|].
  pose proof (run_ice_instances _ _ _ _ _ Hrun eq_refl) as Hice.
  unfold ice_instances in Hice. destruct (mIceTransport pc); lia.
Qed.

(** In every lifetime a DTLS transport is held only by a connection that
    holds an ICE transport. *)
Theorem dtls_needs_ice (certificate : string) (l : list (Env * Call))
    (pc : PeerConnection) (log : list Event) (dtls : DtlsTransport) :
  run l (PeerConnection_new certificate) [] = Some (pc, log) ->
  mDtlsTransport pc = Some dtls ->
  is_Some (mIceTransport pc).
Proof.
  intros Hrun Hd.
  assert (Hinv : is_Some (mDtlsTransport (PeerConnection_new certificate)) ->
                 is_Some (mIceTransport (PeerConnection_new certificate)))
    by (intros [d Hd']; discriminate Hd').
  destruct (run_startup _ _ _ _ _ Hrun Hinv) as (_ & _ & H3);
    [reflexivity|reflexivity|]. apply H3. eauto.
Qed.

End StartupFacts.

Lemma local_description_once_example :
  run (X := plain) (busy_start ++ busy_rest) (PeerConnection_new "local") []
  = Some (busy_end, busy_log)
  /\ (count is_LocalDescriptionCallback busy_log <= 1)%nat
  /\ (count is_gather busy_log <= 1)%nat.
Proof.
  split; [exact busy_run|].
  exact (local_description_once (X := plain) "local" _ _ _ busy_run).
Defined.

Lemma dtls_needs_ice_example :
  run (X := plain) (busy_start ++ busy_rest) (PeerConnection_new "local") []
  = Some (busy_end, busy_log)
  /\ mDtlsTransport busy_end
     = Some {| dtls_lower := Some (session Active) |}
  /\ is_Some (mIceTransport busy_end).
Proof.
  split; [exact busy_run|]. split; [reflexivity|].
  exact (dtls_needs_ice (X := plain) "local" _ _ _ _ busy_run eq_refl).
Defined.

Section AfterStartup.
Context `{X : Externals}.

Lemma run_after_startup (l : list (Env * Call)) (pc pc' : PeerConnection)
    (log log' : list Event) :
  run l pc log = Some (pc', log') ->
  is_Some (mIceTransport pc) ->
  (is_Some (mDtlsTransport pc) -> is_Some (mIceTransport pc)) ->
  is_Some (mIceTransport pc') /\
  ice_created log' = ice_created log /\
  count is_LocalDescriptionCallback log'
    = count is_LocalDescriptionCallback log /\
  count is_gather log' = count is_gather log.
Proof.
  revert pc log. induction l as [|[E c] l IH]; intros pc log; cbn [run].
  - intros [= <- <-]. auto.
  - intros Hrun Hice Hinv.
    pose proof (step_startup E c pc Hinv) as Hs.
    pose proof (step_ice_instances E c pc) as Hi.
    destruct (step E c pc) as [a pc1 evs|e pc1 evs|];
      cbn [final_state events ends_with] in *; [| |discriminate].
    all: destruct Hs as (Hs1 & Hs2 & Hs3);
      assert (Hone : ice_instances pc = 1%nat)
        by (unfold ice_instances; destruct Hice as [i ->]; reflexivity);
      assert (Hle : (ice_instances pc1 <= 1)%nat)
        by (unfold ice_instances; destruct (mIceTransport pc1); lia);
      assert (Hice1 : is_Some (mIceTransport pc1))
        by (unfold ice_instances in Hi, Hle, Hone;
            destruct (mIceTransport pc1); [eauto|lia]);
      destruct (IH _ _ Hrun Hice1 Hs3) as (H1 & H2 & H3 & H4);
      rewrite !count_app, ice_created_app in *;
      repeat split; [exact H1|lia|lia|lia].
Qed.

(** Once the connection holds an ICE transport, no later call constructs
    one, emits the local description or starts gathering: a
    local-description callback set after that point is never called. *)
Theorem startup_not_repeated (l : list (Env * Call))
    (pc pc' : PeerConnection) (log' : list Event) (ice : IceTransport.t) :
  run l pc [] = Some (pc', log') ->
  mIceTransport pc = Some ice ->
  ice_created log' = 0%nat /\
  count is_LocalDescriptionCallback log' = 0%nat /\
  count is_gather log' = 0%nat.
Proof.
  intros Hrun Hice.
  destruct (run_after_startup _ _ _ _ _ Hrun) as (_ & H2 & H3 & H4);
    [eauto|eauto|]. auto.
Qed.

End AfterStartup.

(** A lifetime in which the application sets its local-description callback
    too late. *)
Lemma startup_not_repeated_example :
  run (X := plain)
    [(libs true, OnLocalDescription true);
     (libs true, SetRemoteDescription "update");
     (libs true, CreateDataChannel "late" "" reliable)]
    (set_callbacks false false false busy_mid) []
  = Some (set_mDataChannels
            (<[2 := DataChannel_local 2 "late" "" reliable]>
               (mDataChannels busy_mid))
            (set_mRemoteFingerprint (Some "update")
               (set_callbacks false true false busy_mid)),
          [Ice (IceTransport.parse_remote_sdp "update")])
  /\ count is_LocalDescriptionCallback
       [Ice (IceTransport.parse_remote_sdp "update")] = 0%nat.
Proof.
  assert (H : run (X := plain)
    [(libs true, OnLocalDescription true);
     (libs true, SetRemoteDescription "update");
     (libs true, CreateDataChannel "late" "" reliable)]
    (set_callbacks false false false busy_mid) []
  = Some (set_mDataChannels
            (<[2 := DataChannel_local 2 "late" "" reliable]>
               (mDataChannels busy_mid))
            (set_mRemoteFingerprint (Some "update")
               (set_callbacks false true false busy_mid)),
          [Ice (IceTransport.parse_remote_sdp "update")]))
    by (vm_compute; reflexivity).
  split; [exact H|].
  exact (proj1 (proj2 (startup_not_repeated (X := plain) _ _ _ _ _ H
                         eq_refl))).
Defined.

(** ** [setRemoteDescription] *)

Section SetRemoteDescriptionFacts.
Context `{X : Externals}.
Variable E : Env.

(** Whatever [setRemoteDescription] ends with -- it returns or it throws --
    the fingerprint and the SCTP port the description carries are on
    record afterwards, and what it does not carry is as before; the call
    never ends in undefined behaviour. *)
Theorem setRemoteDescription_records (description : string)
    (pc : PeerConnection) :
  let desc := Description_parse ActPass description in
  exists pc', final_state (setRemoteDescription E description pc) = Some pc' /\
    mRemoteFingerprint pc' =
      match d_fingerprint desc with
      | Some f => Some f
      | None => mRemoteFingerprint pc
      end /\
    mSctpPort pc' = default (mSctpPort pc) (d_sctpPort desc).
Proof.
  destruct pc as [cert mid port fp ice dtls sctp chans cb1 cb2 cb3].
  intros desc. subst desc. unfold_call.
  destruct (d_fingerprint _), (d_sctpPort _); unfold_call; split_call;
    cbv [final_state]; eexists; repeat split.
Qed.

(** The first [setRemoteDescription], the libraries succeeding: the ICE
    transport is constructed with the role ActPass and given the
    description, then the local description is handed to the application
    (if it set a callback), then gathering is started, in this order.  The
    local description is the session's, with the local certificate's
    fingerprint and the SCTP port on record -- the peer's, if its
    description carried one. *)
Theorem setRemoteDescription_first (description : string)
    (pc : PeerConnection) (ice : IceTransport.t) :
  mIceTransport pc = None ->
  IceTransport.new E ActPass = inr ice ->
  nice_agent_parse_remote_sdp E
    (Description_string (Description_parse ActPass description)) = 0 ->
  nice_agent_gather_candidates E = true ->
  let desc := Description_parse ActPass description in
  let port := default (mSctpPort pc) (d_sctpPort desc) in
  let local :=
    setSctpPort port
      (setFingerprint (mCertificate pc)
         (Description_parse ActPass (nice_agent_generate_local_sdp E))) in
  let o := setRemoteDescription E description pc in
  returned o = Some tt /\
  mIceTransport <$> final_state o = Some (Some ice) /\
  events o =
    [NewIceTransport ActPass;
     Ice (IceTransport.parse_remote_sdp (Description_string desc))] ++
    (if mLocalDescriptionCallback pc
     then [LocalDescriptionCallback (Description_string local)] else []) ++
    [Ice (IceTransport.gather_candidates (IceTransport.mStreamId ice))].
Proof.
  destruct pc as [cert mid port0 fp ice0 dtls sctp chans cb1 cb2 cb3].
  cbn [mIceTransport mSctpPort mCertificate mLocalDescriptionCallback].
  intros -> Hnew Hparse Hgather. cbv zeta.
  unfold IceTransport.new in Hnew.
  destruct (negb (nice_agent_new E)) eqn:Hn; [discriminate|].
  destruct (nice_agent_add_stream E =? 0) eqn:Hs; [discriminate|].
  injection Hnew as <-.
  unfold_call.
  destruct (d_fingerprint _), (d_sctpPort _); unfold_call;
    rewrite Hn; unfold_call; rewrite Hs; unfold_call;
    rewrite Hparse; unfold_call;
    destruct cb2; unfold_call; rewrite Hgather; repeat split.
Qed.

(** The first [setRemoteDescription], the agent answering anything but 0 to
    the description: the call throws, having constructed the ICE transport,
    which the connection keeps; the local description is not emitted and
    gathering is not started. *)
Theorem setRemoteDescription_first_refused (description : string)
    (pc : PeerConnection) (ice : IceTransport.t) :
  mIceTransport pc = None ->
  IceTransport.new E ActPass = inr ice ->
  nice_agent_parse_remote_sdp E
    (Description_string (Description_parse ActPass description)) <> 0 ->
  let o := setRemoteDescription E description pc in
  thrown o = Some (runtime_error "Unable to parse remote SDP") /\
  mIceTransport <$> final_state o = Some (Some ice) /\
  events o =
    [NewIceTransport ActPass;
     Ice (IceTransport.parse_remote_sdp
            (Description_string (Description_parse ActPass description)))].
Proof.
  destruct pc as [cert mid port0 fp ice0 dtls sctp chans cb1 cb2 cb3].
  cbn [mIceTransport]. intros -> Hnew Hparse. cbv zeta.
  apply Z.eqb_neq in Hparse.
  unfold IceTransport.new in Hnew.
  destruct (negb (nice_agent_new E)) eqn:Hn; [discriminate|].
  destruct (nice_agent_add_stream E =? 0) eqn:Hs; [discriminate|].
  injection Hnew as <-.
  unfold_call.
  destruct (d_fingerprint _), (d_sctpPort _); unfold_call;
    rewrite Hn; unfold_call; rewrite Hs; unfold_call;
    rewrite Hparse; repeat split.
Qed.

End SetRemoteDescriptionFacts.

Lemma setRemoteDescription_first_example :
  events (setRemoteDescription (X := plain) (libs true) "offer" listening)
  = [NewIceTransport ActPass;
     Ice (IceTransport.parse_remote_sdp "offer");
     LocalDescriptionCallback "local";
     Ice (IceTransport.gather_candidates 1)].
Proof.
  exact (proj2 (proj2
    (setRemoteDescription_first (X := plain) (libs true) "offer" listening
       {| IceTransport.mRole := ActPass; IceTransport.mState := 0;
          IceTransport.mStreamId := 1 |}
       eq_refl eq_refl eq_refl eq_refl))).
Defined.

Lemma setRemoteDescription_first_refused_example :
  thrown (setRemoteDescription (X := plain) libs_candidates "offer" listening)
  = Some (runtime_error "Unable to parse remote SDP") /\
  events (setRemoteDescription (X := plain) libs_candidates "offer" listening)
  = [NewIceTransport ActPass; Ice (IceTransport.parse_remote_sdp "offer")].
Proof.
  destruct (setRemoteDescription_first_refused (X := plain) libs_candidates
              "offer" listening
              {| IceTransport.mRole := ActPass; IceTransport.mState := 0;
                 IceTransport.mStreamId := 1 |}
              eq_refl eq_refl ltac:(discriminate)) as (H1 & _ & H3).
  split; [exact H1|exact H3].
Defined.

(** ** [createDataChannel] *)

Section CreateDataChannelFacts.
Context `{X : Externals}.
Variable E : Env.


(** On a connection with an ICE transport, [createDataChannel] returns
    unless the ids are exhausted, and it opens the channel at once exactly
    when the SCTP transport exists and says it is ready; otherwise it calls
    nothing. *)
Theorem createDataChannel_opens_if_ready (label protocol : string)
    (reliability : Reliability) (pc : PeerConnection)
    (ice : IceTransport.t) :
  mIceTransport pc = Some ice ->
  ~ exhausted (local_parity pc) (mDataChannels pc) ->
  exists ch pc',
    lowest_free (local_parity pc) (mDataChannels pc) (dc_stream ch) /\
    createDataChannel E label protocol reliability pc =
    Ret ch pc'
      (match mSctpTransport pc with
       | Some _ =>
           if SctpTransport_isReady E then [ChannelOpen (dc_stream ch)]
           else []
       | None => []
       end).
Proof.
  intros Hice Hno.
  destruct (find_stream_local pc) as [[_ Hex] | (k & Hfind & Hlow & _)];
    [contradiction|].
  exists (DataChannel_local k label protocol reliability). eexists.
  split; [exact Hlow|].
  unfold createDataChannel. run_monad.
  rewrite local_parity_start, Hfind, Hice.
  destruct (mSctpTransport pc); [destruct (SctpTransport_isReady E)|];
    reflexivity.
Qed.

(** When the SCTP transport becomes ready, every registered channel is
    opened, each exactly once, and nothing else happens: the streams
    opened are the keys of the registry. *)
Theorem openDataChannels_all (pc : PeerConnection) :
  let streams := (map_to_list (mDataChannels pc)).*1 in
  openDataChannels pc = Ret tt pc (ChannelOpen <$> streams) /\
  NoDup streams /\
  forall k, k ∈ streams <-> is_Some (mDataChannels pc !! k).
Proof.
  intros streams. subst streams. split; [|split].
  - unfold openDataChannels. run_monad. f_equal.
    now rewrite <- list_fmap_compose.
  - apply NoDup_fst_map_to_list.
  - intros k. rewrite list_elem_of_fmap. split.
    + intros [[k' ch] [-> Hin]]. apply elem_of_map_to_list in Hin. eauto.
    + intros [ch Hch]. exists (k, ch). split; [reflexivity|].
      now apply elem_of_map_to_list.
Qed.

End CreateDataChannelFacts.


Lemma createDataChannel_opens_if_ready_example :
  ~ exhausted (local_parity (connected Active ∅))
      (mDataChannels (connected Active ∅)) /\
  exists ch pc',
    lowest_free 0 ∅ (dc_stream ch) /\
    createDataChannel (X := plain) (libs true) "chat" "" reliable
      (connected Active ∅)
    = Ret ch pc' [ChannelOpen (dc_stream ch)].
Proof.
  assert (H : ~ exhausted (local_parity (connected Active ∅))
                (mDataChannels (connected Active ∅))).
  { intros Hex. destruct (Hex 0 ltac:(lia) eq_refl) as [c Hc].
    discriminate Hc. }
  split; [exact H|].
  exact (createDataChannel_opens_if_ready (X := plain) (libs true) "chat" ""
           reliable (connected Active ∅) (session Active) eq_refl H).
Defined.

(** ** [forwardMessage] *)

Section ForwardMessageFacts.
Context `{X : Externals}.

Lemma forwardMessage_open (pc : PeerConnection) (ice : IceTransport.t)
    (sctp : SctpTransport) (m : Message.t) :
  mIceTransport pc = Some ice ->
  mSctpTransport pc = Some sctp ->
  mDataChannels pc !! Message.stream m = None ->
  open_message ice m ->
  forwardMessage m pc =
  Ret tt
    (set_mDataChannels
       (<[Message.stream m := DataChannel_remote (Message.stream m)]>
          (mDataChannels pc)) pc)
    [ChannelIncoming (Message.stream m) m].
Proof.
  intros Hice Hsctp Hnew (Ht & [rest Hd] & Hp).
  unfold forwardMessage, remote_parity in *. run_monad.
  rewrite Hice, Hsctp, Hnew. unfold map_insert_new. rewrite Hnew.
  rewrite Ht, Hd. rewrite decide_True by reflexivity.
  apply Z.eqb_eq in Hp. now rewrite Hp.
Qed.

(** After a peer's open request was accepted on a stream, every later
    message on that stream -- of any class, with any payload -- goes to the
    channel made for it; the stream is not reset and no other channel is
    made. *)
Theorem forwardMessage_after_open (pc pc1 : PeerConnection)
    (ice : IceTransport.t) (sctp : SctpTransport) (m m' : Message.t) :
  mIceTransport pc = Some ice ->
  mSctpTransport pc = Some sctp ->
  mDataChannels pc !! Message.stream m = None ->
  open_message ice m ->
  final_state (forwardMessage m pc) = Some pc1 ->
  Message.stream m' = Message.stream m ->
  mDataChannels pc1 !! Message.stream m
    = Some (DataChannel_remote (Message.stream m)) /\
  forwardMessage m' pc1 =
    Ret tt pc1 [ChannelIncoming (Message.stream m) m'].
Proof.
  intros Hice Hsctp Hnew Hopen Hfin Hsame.
  rewrite (forwardMessage_open pc ice sctp m Hice Hsctp Hnew Hopen) in Hfin.
  cbn [final_state] in Hfin. injection Hfin as <-.
  set (pc1 := set_mDataChannels _ pc).
  assert (Hreg : mDataChannels pc1 !! Message.stream m
                 = Some (DataChannel_remote (Message.stream m)))
    by apply lookup_insert_eq.
  split; [exact Hreg|].
  assert (Hice1 : mIceTransport pc1 = Some ice) by exact Hice.
  assert (Hsctp1 : mSctpTransport pc1 = Some sctp) by exact Hsctp.
  rewrite <- Hsame in Hreg.
  rewrite (forwardMessage_known_stream pc1 ice sctp m' _ Hice1 Hsctp1 Hreg).
  now rewrite Hsame.
Qed.

End ForwardMessageFacts.

Lemma forwardMessage_after_open_example :
  final_state (forwardMessage (open_request 1) (connected Active ∅))
  = Some (connected Active {[1 := DataChannel_remote 1]}) /\
  forwardMessage
    {| Message.data := []; Message.type := Data; Message.stream := 1 |}
    (connected Active {[1 := DataChannel_remote 1]})
  = Ret tt (connected Active {[1 := DataChannel_remote 1]})
      [ChannelIncoming 1
         {| Message.data := []; Message.type := Data; Message.stream := 1 |}].
Proof.
  assert (Hopen : open_message (session Active) (open_request 1)).
  { unfold open_message. repeat split. eexists. reflexivity. }
  assert (Hfin : final_state
                   (forwardMessage (open_request 1) (connected Active ∅))
                 = Some (connected Active {[1 := DataChannel_remote 1]}))
    by reflexivity.
  split; [exact Hfin|].
  exact (proj2 (forwardMessage_after_open (connected Active ∅) _
                  (session Active)
                  {| sctp_lower :=
                       Some {| dtls_lower := Some (session Active) |};
                     sctp_port := 5000 |}
                  (open_request 1)
                  {| Message.data := []; Message.type := Data;
                     Message.stream := 1 |}
                  eq_refl eq_refl eq_refl Hopen Hfin eq_refl)).
Defined.

(** ** The signals of the agent *)

Section SignalFacts.
Context `{X : Externals}.
Variable E : Env.

(** A candidate the agent discovers reaches the application as its text,
    tagged with the stream name the agent reports; when the application has
    set no candidate callback, candidates and the end-of-candidates signal
    are dropped without a trace. *)
Theorem local_candidate_forwarded (sdp : string) (pc : PeerConnection)
    (ice : IceTransport.t) :
  mIceTransport pc = Some ice ->
  step E (IceSignal (IceTransport.NewCandidate sdp)) pc =
    Ret tt pc
      (if mLocalCandidateCallback pc then
         [LocalCandidateCallback
            (Some (Candidate_string
                     (Candidate_make sdp (nice_agent_get_stream_name E))))]
       else []) /\
  (mLocalCandidateCallback pc = false ->
   step E (IceSignal IceTransport.GatheringDone) pc = Ret tt pc []).
Proof.
  destruct pc as [cert mid port fp ice0 dtls sctp chans cb1 cb2 cb3].
  cbn [mIceTransport mLocalCandidateCallback]. intros ->. split.
  - unfold_call. destruct ice, cb3; reflexivity.
  - intros ->. unfold_call. destruct ice; reflexivity.
Qed.

Lemma step_state_changed (s : Z) (pc : PeerConnection)
    (ice : IceTransport.t) :
  mIceTransport pc = Some ice ->
  DtlsTransport_new E = None ->
  exists pc', is_Some (mIceTransport pc') /\
    step E (IceSignal (IceTransport.StateChanged s)) pc =
    Ret tt pc' (if s =? READY then [NewDtlsTransport] else []).
Proof.
  destruct pc as [cert mid port fp ice0 dtls sctp chans cb1 cb2 cb3].
  cbn [mIceTransport]. intros -> Hdtls. unfold_call. destruct ice.
  unfold_call. destruct (s =? READY); unfold_call; rewrite ?Hdtls;
    eexists; (split; [|reflexivity]); cbn; eauto.
Qed.

(** Every state change into READY constructs a DTLS transport (the
    constructor succeeding), READY entered again constructs another and the
    connection holds the last: fed a sequence of state changes, the
    connection constructs one DTLS transport per READY in the sequence. *)
Theorem dtls_transport_per_ready (states : list Z) (pc : PeerConnection)
    (ice : IceTransport.t) (log : list Event) :
  mIceTransport pc = Some ice ->
  DtlsTransport_new E = None ->
  exists pc',
    run (map (fun s => (E, IceSignal (IceTransport.StateChanged s))) states)
      pc log
    = Some (pc',
            log ++ ((fun _ => NewDtlsTransport)
                      <$> List.filter (fun s => s =? READY) states)).
Proof.
  intros Hice Hdtls. revert pc ice log Hice.
  induction states as [|s states IH]; intros pc ice log Hice.
  - exists pc. cbn. now rewrite app_nil_r.
  - destruct (step_state_changed s pc ice Hice Hdtls)
      as (pc1 & [ice1 Hice1] & Hstep).
    cbn [map run]. rewrite Hstep. cbn [final_state events].
    destruct (IH pc1 ice1 (log ++ (if s =? READY then [NewDtlsTransport]
                                   else [])) Hice1) as [pc' Hrun].
    exists pc'. rewrite Hrun. cbn [List.filter].
    destruct (s =? READY); cbn [fmap list_fmap];
      now rewrite <- app_assoc.
Qed.

(** The signals of the agent leave the role and the stream of a session as
    they are. *)
Lemma signals_keep (ice : IceTransport.t) (l : list IceTransport.Signal) :
  IceTransport.mRole (fst (IceTransport.signals E ice l))
    = IceTransport.mRole ice /\
  IceTransport.mStreamId (fst (IceTransport.signals E ice l))
    = IceTransport.mStreamId ice.
Proof.
  revert ice. induction l as [|s l IH]; intros ice; [now split|].
  cbn [IceTransport.signals].
  destruct (IceTransport.signal E ice s) as [ice1 e1] eqn:Hs.
  specialize (IH ice1).
  destruct (IceTransport.signals E ice1 l) as [ice2 e2]. cbn [fst] in *.
  assert (IceTransport.mRole ice1 = IceTransport.mRole ice /\
          IceTransport.mStreamId ice1 = IceTransport.mStreamId ice) as [H1 H2].
  { destruct s; cbn in Hs; injection Hs as <- _; now split. }
  destruct IH as [IH1 IH2]. split; congruence.
Qed.

(** On a session that was constructed, whatever the agent signalled since,
    [send] hands the datagram to the agent, on component 1 of the session's
    stream, and returns true: the failure answer of [send] is not reachable
    on a constructed session. *)
Theorem send_after_new (E0 : Env) (role : Role) (ice : IceTransport.t)
    (l : list IceTransport.Signal) (message : Message.t) :
  IceTransport.new E0 role = inr ice ->
  IceTransport.role (fst (IceTransport.signals E ice l)) = role /\
  IceTransport.send (fst (IceTransport.signals E ice l)) message =
  ([IceTransport.nice_agent_send (IceTransport.mStreamId ice) 1
      (Message.size message) (Message.data message)], true).
Proof.
  intros Hnew. pose proof (new_stream_established E0 role ice Hnew) as Hs.
  destruct (signals_keep ice l) as [Hr Hk]. split.
  - unfold IceTransport.role. rewrite Hr. unfold IceTransport.new in Hnew.
    destruct (negb _); [discriminate|].
    destruct (_ =? 0); [discriminate|]. now injection Hnew as <-.
  - unfold IceTransport.send, IceTransport.outgoing. rewrite Hk.
    apply Z.eqb_neq in Hs. now rewrite Hs.
Qed.

End SignalFacts.

Section PortFacts.
Context `{X : Externals}.

Lemma step_port (E : Env) (c : Call) (pc : PeerConnection) :
  ends_with (step E c pc)
    (fun pc' _ => mSctpPort pc' = record_port (mSctpPort pc) (E, c)).
Proof.
  destruct pc as [cert mid port fp ice dtls sctp chans cb1 cb2 cb3].
  destruct c; cbv [record_port snd]; unfold_call; split_call;
    try exact I; reflexivity.
Qed.

Lemma run_port (l : list (Env * Call)) (pc pc' : PeerConnection)
    (log log' : list Event) :
  run l pc log = Some (pc', log') ->
  mSctpPort pc' = fold_left record_port l (mSctpPort pc).
Proof.
  revert pc log. induction l as [|[E c] l IH]; intros pc log; cbn [run].
  - now intros [= <- <-].
  - pose proof (step_port E c pc) as Hs.
    destruct (step E c pc) as [a pc1 evs|e pc1 evs|];
      cbn [final_state events ends_with fold_left] in *; [| |discriminate].
    all: intros Hrun; rewrite (IH _ _ Hrun); now rewrite Hs.
Qed.

(** The SCTP transport is constructed on the port of the last remote
    description that carried one, and on 5000 when none did: that is the
    port on record after any lifetime, and the port [initSctpTransport]
    passes on. *)
Theorem sctp_port_recorded (certificate : string) (l : list (Env * Call))
    (pc : PeerConnection) (log : list Event) (E : Env) :
  run l (PeerConnection_new certificate) [] = Some (pc, log) ->
  SctpTransport_new E = None ->
  mSctpPort pc = recorded_port l /\
  events (initSctpTransport E pc) = [NewSctpTransport (recorded_port l)] /\
  sctp_port <$> (final_state (initSctpTransport E pc) ≫= mSctpTransport)
    = Some (recorded_port l).
Proof.
  intros Hrun Hnew. apply run_port in Hrun.
  cbn [mSctpPort PeerConnection_new] in Hrun.
  fold (recorded_port l) in Hrun. split; [exact Hrun|].
  unfold initSctpTransport. run_monad. rewrite Hnew. cbn. now rewrite Hrun.
Qed.

End PortFacts.

(** ** The choice of a STUN server *)

Lemma stun_first_numeric_sets (R : Resolver) (result : list addrinfo) :
  List.filter is_resolve (fst (stun_first_numeric R result)) = [] /\
  (length (List.filter is_set_stun_server (fst (stun_first_numeric R result)))
   <= 1)%nat /\
  (snd (stun_first_numeric R result) = inr false ->
   fst (stun_first_numeric R result) = []).
Proof.
  induction result as [|p result IH]; cbn [stun_first_numeric];
    [repeat split; cbn; lia|].
  destruct (ai_family p =? AF_INET); [|exact IH].
  destruct (ai_numeric p) as [[node serv]|]; [|exact IH].
  destruct (stoul R serv); cbn; repeat split; try lia; discriminate.
Qed.

(** A server without a host name is never resolved, and no server is
    resolved with an empty service: every [getaddrinfo] call is for the
    host name of a configured server, not empty, with its service or, where
    that is empty, "3478". *)
Theorem stun_resolves_named_servers (R : Resolver)
    (servers : list IceServer) (node serv : string) :
  In (resolve node serv) (fst (stun_select R servers)) ->
  node <> "" /\ serv <> "" /\
  exists server, In server servers /\ hostname server = node /\
    (service server = serv \/ (service server = "" /\ serv = "3478")).
Proof.
  induction servers as [|server servers IH]; cbn [stun_select fst];
    [intros []|].
  assert (Hrest : In (resolve node serv) (fst (stun_select R servers)) ->
                  node <> "" /\ serv <> "" /\
                  exists s, In s (server :: servers) /\ hostname s = node /\
                    (service s = serv \/ (service s = "" /\ serv = "3478"))).
  { intros Hin. destruct (IH Hin) as (H1 & H2 & s & Hs & H3).
    repeat split; try assumption. exists s. split; [now right|exact H3]. }
  destruct (String.eqb (hostname server) "") eqn:Hh; [exact Hrest|].
  apply String.eqb_neq in Hh.
  assert (Hhere : resolve (hostname server)
                    (if String.eqb (service server) "" then "3478"
                     else service server) = resolve node serv ->
                  node <> "" /\ serv <> "" /\
                  exists s, In s (server :: servers) /\ hostname s = node /\
                    (service s = serv \/ (service s = "" /\ serv = "3478"))).
  { intros [= <- <-]. split; [exact Hh|].
    destruct (String.eqb (service server) "") eqn:Hs.
    - apply String.eqb_eq in Hs. split; [discriminate|].
      exists server. split; [now left|]. split; [reflexivity|]. now right.
    - apply String.eqb_neq in Hs. split; [exact Hs|].
      exists server. split; [now left|]. split; [reflexivity|]. now left. }
  destruct (getaddrinfo R _ _) as [result|].
  - pose proof (stun_first_numeric_sets R result) as (Hnr & _ & _).
    destruct (stun_first_numeric R result) as [e1 r1]. cbn [fst] in Hnr.
    assert (Hne1 : ~ In (resolve node serv) e1).
    { intros Hin.
      assert (Hf : In (resolve node serv) (List.filter is_resolve e1))
        by (apply List.filter_In; now split).
      rewrite Hnr in Hf. exact Hf. }
    destruct r1 as [e|[|]]; cbn [fst].
    + intros [Hin|Hin]; [now apply Hhere|contradiction].
    + intros [Hin|Hin]; [now apply Hhere|contradiction].
    + destruct (stun_select R servers) as [e2 r2]. cbn [fst] in *.
      intros [Hin|Hin]; [now apply Hhere|].
      apply List.in_app_or in Hin as [Hin|Hin]; [contradiction|].
      now apply Hrest.
  - destruct (stun_select R servers) as [e2 r2]. cbn [fst] in *.
    intros [Hin|Hin]; [now apply Hhere|now apply Hrest].
Qed.

(** The agent is given a STUN server exactly when the loop ends with
    success, and then one only, as the last thing done; when no server
    yields an IPv4 address the loop ends without success and without an
    error, and the agent has no STUN server. *)
Theorem stun_sets_one_server (R : Resolver) (servers : list IceServer) :
  let effects := fst (stun_select R servers) in
  match snd (stun_select R servers) with
  | inr true =>
      exists before node port,
        effects = before ++ [set_stun_server node; set_stun_server_port port]
        /\ List.filter is_set_stun_server before = []
  | inr false => List.filter is_set_stun_server effects = []
  | inl e =>
      e = logic_error "stoul" /\
      exists before node,
        effects = before ++ [set_stun_server node]
        /\ List.filter is_set_stun_server before = []
  end.
Proof.
  cbv zeta. induction servers as [|server servers IH];
    cbn [stun_select fst snd]; [reflexivity|].
  destruct (String.eqb (hostname server) ""); [exact IH|].
  set (serv := if String.eqb (service server) "" then "3478"
               else service server).
  assert (Hcons : forall r effs,
    match r with
    | inr true =>
        exists before node port,
          effs = before ++ [set_stun_server node; set_stun_server_port port]
          /\ List.filter is_set_stun_server before = []
    | inr false => List.filter is_set_stun_server effs = []
    | inl e =>
        e = logic_error "stoul" /\
        exists before node,
          effs = before ++ [set_stun_server node]
          /\ List.filter is_set_stun_server before = []
    end ->
    match r with
    | inr true =>
        exists before node port,
          resolve (hostname server) serv :: effs
          = before ++ [set_stun_server node; set_stun_server_port port]
          /\ List.filter is_set_stun_server before = []
    | inr false =>
        List.filter is_set_stun_server
          (resolve (hostname server) serv :: effs) = []
    | inl e =>
        e = logic_error "stoul" /\
        exists before node,
          resolve (hostname server) serv :: effs
          = before ++ [set_stun_server node]
          /\ List.filter is_set_stun_server before = []
    end).
  { intros [e|[|]] effs.
    - intros [-> (before & node & -> & Hb)]. split; [reflexivity|].
      exists (resolve (hostname server) serv :: before), node.
      split; [reflexivity|exact Hb].
    - intros (before & node & port & -> & Hb).
      exists (resolve (hostname server) serv :: before), node, port.
      split; [reflexivity|exact Hb].
    - intros H. exact H. }
  destruct (getaddrinfo R (hostname server) serv) as [result|].
  - assert (Hin : match snd (stun_first_numeric R result) with
      | inr true =>
          exists node port,
            fst (stun_first_numeric R result)
            = [set_stun_server node; set_stun_server_port port]
      | inr false => fst (stun_first_numeric R result) = []
      | inl e =>
          e = logic_error "stoul" /\
          exists node, fst (stun_first_numeric R result)
                       = [set_stun_server node]
      end).
    { clear. induction result as [|p result IH];
        cbn [stun_first_numeric]; [reflexivity|].
      destruct (ai_family p =? AF_INET); [|exact IH].
      destruct (ai_numeric p) as [[node s]|]; [|exact IH].
      destruct (stoul R s); cbn; eauto. }
    destruct (stun_first_numeric R result) as [e1 r1]. cbn [fst snd] in Hin.
    destruct r1 as [e|[|]]; cbn [fst snd].
    + apply (Hcons (inl e)). destruct Hin as [-> [node ->]].
      split; [reflexivity|]. exists [], node. now split.
    + apply (Hcons (inr true)). destruct Hin as (node & port & ->).
      exists [], node, port. now split.
    + subst e1. destruct (stun_select R servers) as [e2 r2].
      cbn [fst snd app] in *. now apply Hcons.
  - destruct (stun_select R servers) as [e2 r2]. cbn [fst snd] in *.
    now apply Hcons.
Qed.

(** Once a server has yielded an address the loop stops: the servers after
    it in the order tried are not resolved, whatever they are; and servers
    that yield nothing are passed over, the choice being that among the
    rest. *)
Theorem stun_first_success (R : Resolver) (tried rest : list IceServer) :
  (snd (stun_select R tried) = inr true ->
   stun_select R (tried ++ rest) = stun_select R tried) /\
  (snd (stun_select R tried) = inr false ->
   stun_select R (tried ++ rest) =
   (fst (stun_select R tried) ++ fst (stun_select R rest),
    snd (stun_select R rest))).
Proof.
  induction tried as [|server tried IH]; cbn [stun_select app fst snd].
  - split; [discriminate|]. intros _. now destruct (stun_select R rest).
  - destruct (String.eqb (hostname server) ""); [exact IH|].
    destruct (getaddrinfo R _ _) as [result|].
    + destruct (stun_first_numeric R result) as [e1 [e|[|]]];
        cbn [fst snd]; [split; [discriminate|discriminate]
                       |split; [reflexivity|discriminate]|].
      destruct (stun_select R tried) as [e2 r2]. cbn [fst snd] in *.
      destruct IH as [IH1 IH2]. split; intros Hr.
      * now rewrite (IH1 Hr).
      * rewrite (IH2 Hr). destruct (stun_select R rest) as [e3 r3].
        cbn [fst snd app]. now rewrite ?app_assoc.
    + destruct (stun_select R tried) as [e2 r2]. cbn [fst snd] in *.
      destruct IH as [IH1 IH2]. split; intros Hr.
      * now rewrite (IH1 Hr).
      * rewrite (IH2 Hr). now destruct (stun_select R rest).
Qed.

(** The example: the unnamed server is skipped, the second does not
    resolve, the third is chosen by its IPv4 address with the default
    service, the fourth is not tried. *)
Example stun_select_example :
  stun_select example_resolver example_servers
  = ([resolve "stun.invalid" "3478"; resolve "stun.example.org" "3478";
      set_stun_server "192.0.2.1"; set_stun_server_port 3478], inr true).
Proof. reflexivity. Qed.

Lemma stun_resolves_named_servers_example :
  In (resolve "stun.example.org" "3478")
     (fst (stun_select example_resolver example_servers)) /\
  "stun.example.org" <> "" /\ "3478" <> "" /\
  exists server, In server example_servers /\
    hostname server = "stun.example.org" /\
    (service server = "3478" \/ (service server = "" /\ "3478" = "3478")).
Proof.
  assert (H : In (resolve "stun.example.org" "3478")
                (fst (stun_select example_resolver example_servers)))
    by (cbn; tauto).
  split; [exact H|].
  exact (stun_resolves_named_servers example_resolver example_servers
           "stun.example.org" "3478" H).
Defined.

(** ** Further instances *)

Lemma local_candidate_forwarded_example :
  step (X := plain) (libs true)
    (IceSignal (IceTransport.NewCandidate "candidate:1 1 UDP 1 ::1 9 typ host"))
    (connected Active ∅)
  = Ret tt (connected Active ∅)
      [LocalCandidateCallback (Some "candidate:1 1 UDP 1 ::1 9 typ host")]
  /\ step (X := plain) (libs true) (IceSignal IceTransport.GatheringDone)
       (set_callbacks true true false (connected Active ∅))
     = Ret tt (set_callbacks true true false (connected Active ∅)) [].
Proof.
  split.
  - exact (proj1 (local_candidate_forwarded (X := plain) (libs true) _
                    (connected Active ∅) (session Active) eq_refl)).
  - exact (proj2 (local_candidate_forwarded (X := plain) (libs true) ""
                    (set_callbacks true true false (connected Active ∅))
                    (session Active) eq_refl) eq_refl).
Defined.

Lemma dtls_transport_per_ready_example :
  exists pc',
    run (X := plain)
      (map (fun s => (libs true, IceSignal (IceTransport.StateChanged s)))
         [2; 3; 4; 3; 4])
      busy_mid []
    = Some (pc', [NewDtlsTransport; NewDtlsTransport]).
Proof.
  exact (dtls_transport_per_ready (X := plain) (libs true) [2; 3; 4; 3; 4]
           busy_mid _ [] eq_refl eq_refl).
Defined.

Lemma send_after_new_example :
  IceTransport.new (libs true) Active
  = inr {| IceTransport.mRole := Active; IceTransport.mState := 0;
           IceTransport.mStreamId := 1 |} /\
  IceTransport.send
    (fst (IceTransport.signals (X := plain) (libs true)
            {| IceTransport.mRole := Active; IceTransport.mState := 0;
               IceTransport.mStreamId := 1 |}
            [IceTransport.StateChanged 4; IceTransport.StateChanged 5]))
    (open_request 0)
  = ([IceTransport.nice_agent_send 1 1 12 (Message.data (open_request 0))],
     true).
Proof.
  split; [reflexivity|].
  exact (proj2 (send_after_new (X := plain) (libs true) (libs true) Active _
                  [IceTransport.StateChanged 4; IceTransport.StateChanged 5]
                  (open_request 0) eq_refl)).
Defined.

Lemma sctp_port_recorded_example :
  run (X := ported)
    [(libs true, SetRemoteDescription "port 6000");
     (libs true, SetRemoteDescription "update")]
    (PeerConnection_new "local") []
  = Some (set_mIceTransport
            (Some {| IceTransport.mRole := ActPass; IceTransport.mState := 0;
                     IceTransport.mStreamId := 1 |})
            (set_mSctpPort 6000 (PeerConnection_new "local")),
          [NewIceTransport ActPass;
           Ice (IceTransport.parse_remote_sdp "port 6000");
           Ice (IceTransport.gather_candidates 1);
           Ice (IceTransport.parse_remote_sdp "update")])
  /\ events (initSctpTransport (libs true)
       (set_mIceTransport
          (Some {| IceTransport.mRole := ActPass; IceTransport.mState := 0;
                   IceTransport.mStreamId := 1 |})
          (set_mSctpPort 6000 (PeerConnection_new "local"))))
     = [NewSctpTransport 6000].
Proof.
  assert (H : run (X := ported)
    [(libs true, SetRemoteDescription "port 6000");
     (libs true, SetRemoteDescription "update")]
    (PeerConnection_new "local") []
  = Some (set_mIceTransport
            (Some {| IceTransport.mRole := ActPass; IceTransport.mState := 0;
                     IceTransport.mStreamId := 1 |})
            (set_mSctpPort 6000 (PeerConnection_new "local")),
          [NewIceTransport ActPass;
           Ice (IceTransport.parse_remote_sdp "port 6000");
           Ice (IceTransport.gather_candidates 1);
           Ice (IceTransport.parse_remote_sdp "update")]))
    by (vm_compute; reflexivity).
  split; [exact H|].
  exact (proj1 (proj2 (sctp_port_recorded (X := ported) "local" _ _ _
                         (libs true) H eq_refl))).
Defined.

(** ** More on the channels *)

Section ChannelFacts.
Context `{X : Externals}.

Lemma find_stream_lowest (pc : PeerConnection) (k : Z) :
  lowest_free (local_parity pc) (mDataChannels pc) k ->
  k < 65535 ->
  find_stream stream_fuel (mDataChannels pc) (local_parity pc)
  = Some (inr k).
Proof.
  intros (Hk0 & Hkp & Hfree & Hmin) Hk.
  destruct (find_stream_local pc) as [[_ Hex] | (k' & Hfind & Hlow' & _)].
  - destruct (Hex k ltac:(lia) Hkp) as [c Hc].
    rewrite Hfree in Hc. discriminate Hc.
  - rewrite Hfind. destruct Hlow' as (Hk0' & Hkp' & Hfree' & Hmin').
    destruct (Z.lt_trichotomy k' k) as [Hlt | [-> | Hgt]]; [|reflexivity|].
    + destruct (Hmin k' ltac:(lia) Hkp') as [c Hc].
      rewrite Hfree' in Hc. discriminate Hc.
    + destruct (Hmin' k ltac:(lia) Hkp) as [c Hc].
      rewrite Hfree in Hc. discriminate Hc.
Qed.

(** The first [createDataChannel] on a connection without ICE transport, the
    libraries succeeding: the channel is registered under the lowest free
    even id and returned, the ICE transport is constructed with the role
    Active -- it is given no remote description --, the local description
    is handed to the application (if it set a callback) and gathering is
    started, in this order. *)
Theorem createDataChannel_first (E : Env) (label protocol : string)
    (reliability : Reliability) (pc : PeerConnection)
    (ice : IceTransport.t) (k : Z) :
  mIceTransport pc = None ->
  IceTransport.new E Active = inr ice ->
  nice_agent_gather_candidates E = true ->
  lowest_free 0 (mDataChannels pc) k ->
  k < 65535 ->
  let local :=
    setSctpPort (mSctpPort pc)
      (setFingerprint (mCertificate pc)
         (Description_parse Active (nice_agent_generate_local_sdp E))) in
  let o := createDataChannel E label protocol reliability pc in
  returned o = Some (DataChannel_local k label protocol reliability) /\
  mIceTransport <$> final_state o = Some (Some ice) /\
  events o =
    [NewIceTransport Active] ++
    (if mLocalDescriptionCallback pc
     then [LocalDescriptionCallback (Description_string local)] else []) ++
    [Ice (IceTransport.gather_candidates (IceTransport.mStreamId ice))].
Proof.
  destruct pc as [cert mid port0 fp ice0 dtls sctp chans cb1 cb2 cb3].
  cbn [mIceTransport mSctpPort mCertificate mLocalDescriptionCallback
       mDataChannels].
  intros -> Hnew Hgather Hlow Hk. cbv zeta.
  pose proof (find_stream_lowest
                {| mCertificate := cert; mMid := mid; mSctpPort := port0;
                   mRemoteFingerprint := fp; mIceTransport := None;
                   mDtlsTransport := dtls; mSctpTransport := sctp;
                   mDataChannels := chans; mDataChannelCallback := cb1;
                   mLocalDescriptionCallback := cb2;
                   mLocalCandidateCallback := cb3 |} k Hlow Hk) as Hfind.
  cbn [local_parity mIceTransport mDataChannels] in Hfind.
  unfold IceTransport.new in Hnew.
  destruct (negb (nice_agent_new E)) eqn:Hn; [discriminate|].
  destruct (nice_agent_add_stream E =? 0) eqn:Hs; [discriminate|].
  injection Hnew as <-.
  unfold_call. rewrite decide_True by reflexivity. rewrite Hfind.
  unfold_call. rewrite Hn. unfold_call. rewrite Hs. unfold_call.
  destruct cb2; unfold_call; rewrite Hgather; repeat split.
Qed.

Lemma map_insert_new_here (k : Z) (v : DataChannel)
    (m : gmap Z DataChannel) :
  is_Some (map_insert_new k v m !! k).
Proof.
  unfold map_insert_new. destruct (m !! k) eqn:Hk; [rewrite Hk; eauto|].
  rewrite lookup_insert_eq. eauto.
Qed.

(** A call opens, or hands a message to, registered channels only. *)
Lemma step_channel_events (E : Env) (c : Call) (pc : PeerConnection) :
  ends_with (step E c pc)
    (fun pc' evs =>
       forall e s, In e evs -> channel_of e = Some s ->
                   is_Some (mDataChannels pc' !! s)).
Proof.
  destruct pc as [cert mid port fp ice dtls sctp chans cb1 cb2 cb3].
  destruct c;
    try (unfold_call; split_call; try exact I;
         intros ? ? Hin Hch; cbn [In] in Hin;
         repeat (destruct Hin as [<- | Hin]; [try discriminate Hch|]);
         try contradiction;
         injection Hch as <-;
         first [apply map_insert_new_here | eauto]; fail).
  cbn [step]. unfold openDataChannels. run_monad. cbn [ends_with].
  intros e s Hin Hch. apply List.in_map_iff in Hin as ([k ch] & <- & Hin).
  injection Hch as <-. cbn [fst mDataChannels].
  apply list_elem_of_In, elem_of_map_to_list in Hin. eauto.
Qed.

Lemma run_channel_events (l : list (Env * Call)) (pc pc' : PeerConnection)
    (log log' : list Event) :
  run l pc log = Some (pc', log') ->
  (forall e s, In e log -> channel_of e = Some s ->
               is_Some (mDataChannels pc !! s)) ->
  forall e s, In e log' -> channel_of e = Some s ->
              is_Some (mDataChannels pc' !! s).
Proof.
  revert pc log. induction l as [|[E c] l IH]; intros pc log; cbn [run].
  - now intros [= <- <-].
  - intros Hrun Hlog. pose proof (step_channel_events E c pc) as Hs.
    pose proof (step_registry E c pc) as Hr.
    destruct (step E c pc) as [a pc1 evs|x pc1 evs|];
      cbn [final_state events ends_with] in *; [| |discriminate].
    all: apply (IH _ _ Hrun); intros e s Hin Hch;
      apply List.in_app_or in Hin as [Hin|Hin]; [|now apply (Hs e s)];
      destruct (Hlog e s Hin Hch) as [ch Hch'];
      exists ch; exact (lookup_weaken _ _ _ _ Hch' (proj1 Hr)).
Qed.

(** In every lifetime, every channel that was opened and every channel that
    was handed a message is in the registry: nothing is delivered to, or
    opened on, a stream the connection has no channel for. *)
Theorem channel_events_registered (certificate : string)
    (l : list (Env * Call)) (pc : PeerConnection) (log : list Event)
    (e : Event) (s : Z) :
  run l (PeerConnection_new certificate) [] = Some (pc, log) ->
  In e log ->
  channel_of e = Some s ->
  is_Some (mDataChannels pc !! s).
Proof.
  intros Hrun. apply (run_channel_events _ _ _ _ _ Hrun). intros ? ? [].
Qed.

End ChannelFacts.

Lemma createDataChannel_first_example :
  returned (createDataChannel (X := plain) (libs true) "chat" "" reliable
              listening)
  = Some (DataChannel_local 0 "chat" "" reliable) /\
  events (createDataChannel (X := plain) (libs true) "chat" "" reliable
            listening)
  = [NewIceTransport Active; LocalDescriptionCallback "local";
     Ice (IceTransport.gather_candidates 1)].
Proof.
  destruct (createDataChannel_first (X := plain) (libs true) "chat" ""
              reliable listening
              {| IceTransport.mRole := Active; IceTransport.mState := 0;
                 IceTransport.mStreamId := 1 |} 0
              eq_refl eq_refl eq_refl
              ltac:(repeat split; try reflexivity; intros j Hj; lia)
              ltac:(lia))
    as (H1 & _ & H3).
  split; [exact H1|exact H3].
Defined.

Lemma channel_events_registered_example :
  run (X := plain) (busy_start ++ busy_rest) (PeerConnection_new "local") []
  = Some (busy_end, busy_log) /\
  In (ChannelOpen 2) busy_log /\
  is_Some (mDataChannels busy_end !! 2).
Proof.
  assert (Hin : In (ChannelOpen 2) busy_log) by (cbn; tauto).
  split; [exact busy_run|]. split; [exact Hin|].
  exact (channel_events_registered (X := plain) "local" _ _ _ _ 2 busy_run
           Hin eq_refl).
Defined.

Lemma forwardMessage_without_transport_example :
  (mIceTransport busy_mid = None \/ mSctpTransport busy_mid = None) /\
  forwardMessage (open_request 1) busy_mid
  = Throw (logic_error "Got a DataChannel message without transport")
      busy_mid [].
Proof.
  assert (H : mIceTransport busy_mid = None \/ mSctpTransport busy_mid = None)
    by (right; reflexivity).
  split; [exact H|].
  exact (forwardMessage_without_transport busy_mid (open_request 1) H).
Defined.
